(** * baronette-api: the user model and the login / admin-check handlers

    A shallow embedding of [src/models/userModel.js] (the credential store:
    every function is one parameterised SQL statement sent through the
    connection pool, two of them preceded by a bcrypt call) and of
    [src/controllers/userController.js] (the handlers [loginUser] and
    [checkAdmin]), followed by the properties of the credential workflow.

    Effects are explicit: a handler is a function from the world (the
    database behind the pool and the lines written to the console) to an
    outcome (a value, or a thrown [Error]) and the world afterwards. *)

From stdpp Require Import base option list strings gmap.

Local Open Scope string_scope.
Local Open Scope list_scope.

(** ** JavaScript values *)

(** The scalars the handlers read from a request body or a parameter
    object.  A property that is missing reads as [JUndefined]. *)
Inductive jsval : Type :=
  | JUndefined
  | JNull
  | JBool (b : bool)
  | JStr (s : string).

#[global] Instance jsval_eq_dec : EqDecision jsval.
Proof. solve_decision. Defined.

(** A plain object: [req.body], [userData], [updatedInfo], a JSON reply. *)
Abbreviation object := (gmap string jsval).

(** [o.k], and what [const { k } = o] binds. *)
Definition get (o : object) (k : string) : jsval :=
  default JUndefined (o !! k).

(** [a === b] on scalars. *)
Definition strict_eq (a b : jsval) : bool := bool_decide (a = b).

(** The text a template literal or [+] puts in place of a value. *)
Definition to_string (v : jsval) : string :=
  match v with
  | JUndefined => "undefined"
  | JNull => "null"
  | JBool true => "true"
  | JBool false => "false"
  | JStr s => s
  end.

(** [new Error(message)]. *)
Record js_error : Type := Error { message : string }.

(** ** The database behind [pool] *)

(** A query parameter as the driver sends it: SQL NULL or a text. *)
Abbreviation param := (option string).

(** How the driver lowers a JavaScript value to a parameter: [null] and
    [undefined] become NULL, everything else its [toString()]. *)
Definition to_param (v : jsval) : param :=
  match v with
  | JUndefined | JNull => None
  | v => Some (to_string v)
  end.

(** A column value as the driver hands it back in a row object. *)
Definition from_param (p : param) : jsval :=
  match p with
  | None => JNull
  | Some s => JStr s
  end.

(** A row of [public.user_list]: the columns the statements name.  The
    text columns may hold NULL; [id] is assigned by the table. *)
Record user_row : Type := mk_user_row {
  id : string;
  first_name : param;
  last_name_1 : param;
  last_name_2 : param;
  username : param;
  user_password : param;
  email : param;
  verified : bool
}.

#[global] Instance user_row_eq_dec : EqDecision user_row.
Proof. solve_decision. Defined.

(** The tables, in storage order, and the condition of the connection:
    [fault = Some msg] when the server rejects the statement sent to it
    (unreachable, constraint violated, ...) with message [msg]; a
    rejected statement changes nothing.  [admin_list] is kept as its
    [user_id] column. *)
Record database : Type := mk_database {
  user_list : list user_row;
  admin_list : list string;
  fault : option string
}.

(** What [pool.query] resolves to. *)
Record query_result (R : Type) : Type := mk_result {
  rows : list R;
  rowCount : nat
}.
Arguments mk_result {R} _ _.
Arguments rows {R} _.
Arguments rowCount {R} _.

(** SQL [col = $n]: never true when either side is NULL. *)
Definition sql_eq (col p : param) : bool :=
  match col, p with
  | Some a, Some b => bool_decide (a = b)
  | _, _ => false
  end.

(** SQL [COALESCE($n, col)]. *)
Definition coalesce (p col : param) : param :=
  match p with
  | Some v => Some v
  | None => col
  end.

(** SQL [col = ANY($n)] for an array parameter. *)
Definition sql_eq_any (col : param) (ps : list param) : bool :=
  existsb (sql_eq col) ps.

(** The result of a SELECT: the rows and their number. *)
Definition selected {R : Type} (rs : list R) : query_result R :=
  mk_result rs (length rs).

(** The result of an INSERT, UPDATE or DELETE: the number of rows hit. *)
Definition affected (n : nat) : query_result user_row :=
  mk_result [] n.

(** Modelled from the spec: the declaration of [public.user_list] is not
    part of the sources; a column the INSERT does not name takes its
    declared default, and for [verified] the data model gives
    "verified flag (boolean, default false at creation)". *)
Definition verified_default : bool := false.

Module sql.

(** [SELECT * FROM public.user_list WHERE username = $1] *)
Definition select_user_by_username (p1 : param) (db : database)
  : query_result user_row * database :=
  (selected (filter (λ r, sql_eq (username r) p1) (user_list db)), db).

(** [SELECT * FROM public.user_list WHERE email = $1] *)
Definition select_user_by_email (p1 : param) (db : database)
  : query_result user_row * database :=
  (selected (filter (λ r, sql_eq (email r) p1) (user_list db)), db).

(** [SELECT * FROM public.user_list WHERE id = $1] *)
Definition select_user_by_id (p1 : param) (db : database)
  : query_result user_row * database :=
  (selected (filter (λ r, sql_eq (Some (id r)) p1) (user_list db)), db).

(** [SELECT * FROM public.admin_list WHERE user_id = $1] *)
Definition select_admin_by_user_id (p1 : param) (db : database)
  : query_result string * database :=
  (selected (filter (λ a, sql_eq (Some a) p1) (admin_list db)), db).

(** The database with [public.user_list] replaced. *)
Definition with_users (us : list user_row) (db : database) : database :=
  {| user_list := us; admin_list := admin_list db; fault := fault db |}.

(** [INSERT INTO public.user_list (first_name, last_name_1, last_name_2,
    username, user_password, email) VALUES ($1, $2, $3, $4, $5, $6)];
    [new_id] is the identifier the table gives the new row. *)
Definition insert_user (new_id : list user_row → string)
    (p1 p2 p3 p4 p5 p6 : param) (db : database)
  : query_result user_row * database :=
  let row := {| id := new_id (user_list db);
                first_name := p1; last_name_1 := p2; last_name_2 := p3;
                username := p4; user_password := p5; email := p6;
                verified := verified_default |} in
  (affected 1, with_users (user_list db ++ [row]) db).

(** [SET verified = b] on one row. *)
Definition set_verified (b : bool) (r : user_row) : user_row :=
  {| id := id r;
     first_name := first_name r; last_name_1 := last_name_1 r;
     last_name_2 := last_name_2 r; username := username r;
     user_password := user_password r; email := email r;
     verified := b |}.

(** [UPDATE public.user_list SET verified = TRUE WHERE username = ANY($1)] *)
Definition verify_usernames (p1 : list param) (db : database)
  : query_result user_row * database :=
  let hit r := sql_eq_any (username r) p1 in
  (affected (length (filter (λ r, hit r) (user_list db))),
   with_users
     ((λ r, if hit r then set_verified true r else r) <$> user_list db) db).

(** [DELETE FROM public.user_list WHERE id = $1] *)
Definition delete_user_by_id (p1 : param) (db : database)
  : query_result user_row * database :=
  let hit r := sql_eq (Some (id r)) p1 in
  (affected (length (filter (λ r, hit r) (user_list db))),
   with_users (filter (λ r, ¬ hit r) (user_list db)) db).

(** [DELETE FROM public.user_list WHERE username = $1] *)
Definition delete_user_by_username (p1 : param) (db : database)
  : query_result user_row * database :=
  let hit r := sql_eq (username r) p1 in
  (affected (length (filter (λ r, hit r) (user_list db))),
   with_users (filter (λ r, ¬ hit r) (user_list db)) db).

(** The SET clause of the profile update, on one row. *)
Definition merge_profile (p1 p2 p3 p4 : param) (r : user_row) : user_row :=
  {| id := id r;
     first_name := coalesce p1 (first_name r);
     last_name_1 := coalesce p2 (last_name_1 r);
     last_name_2 := coalesce p3 (last_name_2 r);
     username := username r;
     user_password := user_password r;
     email := coalesce p4 (email r);
     verified := false |}.

(** [UPDATE public.user_list
     SET first_name = COALESCE($1, first_name),
         last_name_1 = COALESCE($2, last_name_1),
         last_name_2 = COALESCE($3, last_name_2),
         email = COALESCE($4, email),
         verified = false
     WHERE id = $5] *)
Definition update_user (p1 p2 p3 p4 p5 : param) (db : database)
  : query_result user_row * database :=
  let hit r := sql_eq (Some (id r)) p5 in
  (affected (length (filter (λ r, hit r) (user_list db))),
   with_users
     ((λ r, if hit r then merge_profile p1 p2 p3 p4 r else r)
        <$> user_list db) db).

(** [SET user_password = p] on one row. *)
Definition set_password (p : param) (r : user_row) : user_row :=
  {| id := id r;
     first_name := first_name r; last_name_1 := last_name_1 r;
     last_name_2 := last_name_2 r; username := username r;
     user_password := p; email := email r;
     verified := verified r |}.

(** [UPDATE public.user_list SET user_password = $1 WHERE id = $2] *)
Definition update_password (p1 p2 : param) (db : database)
  : query_result user_row * database :=
  let hit r := sql_eq (Some (id r)) p2 in
  (affected (length (filter (λ r, hit r) (user_list db))),
   with_users ((λ r, if hit r then set_password p1 r else r)
                 <$> user_list db) db).

End sql.

(** ** The world and the monad of handlers *)

(** One argument of a [console.log] / [console.error] call. *)
Inductive log_arg : Type :=
  | LogVal (v : jsval)
  | LogObj (o : object)
  | LogErr (e : js_error).

Inductive stream : Type := Stdout | Stderr.

Record log_entry : Type := mk_log {
  log_stream : stream;
  log_args : list log_arg
}.

Record world : Type := mk_world {
  pool : database;
  console : list log_entry
}.

(** How an [async] function settles: resolved with a value or rejected. *)
Inductive outcome (A : Type) : Type :=
  | Return (a : A)
  | Throw (e : js_error).
Arguments Return {A} a.
Arguments Throw {A} e.

Definition M (A : Type) : Type := world → outcome A * world.

Definition ret {A : Type} (a : A) : M A := λ w, (Return a, w).

Definition throw {A : Type} (e : js_error) : M A := λ w, (Throw e, w).

(** [const x = await m; k x] *)
Definition bind {A B : Type} (m : M A) (k : A → M B) : M B :=
  λ w, match m w with
       | (Return a, w') => k a w'
       | (Throw e, w') => (Throw e, w')
       end.

(** [try { body } catch (error) { handler error }] *)
Definition try_catch {A : Type} (body : M A) (handler : js_error → M A)
  : M A :=
  λ w, match body w with
       | (Return a, w') => (Return a, w')
       | (Throw e, w') => handler e w'
       end.

#[global] Instance M_ret : MRet M := @ret.
#[global] Instance M_bind : MBind M := λ A B k m, bind m k.

(** [await pool.query(text, values)], [stmt] being the meaning of the
    statement with its values bound. *)
Definition pool_query {R : Type}
    (stmt : database → query_result R * database) : M (query_result R) :=
  λ w, match fault (pool w) with
       | Some msg => (Throw (Error msg), w)
       | None =>
           let '(result, db) := stmt (pool w) in
           (Return result, {| pool := db; console := console w |})
       end.

Definition console_log (args : list log_arg) : M unit :=
  λ w, (Return tt, {| pool := pool w;
                      console := console w ++ [mk_log Stdout args] |}).

Definition console_error (args : list log_arg) : M unit :=
  λ w, (Return tt, {| pool := pool w;
                      console := console w ++ [mk_log Stderr args] |}).

(** ** bcrypt *)

(** The package is used through two functions.  [bcrypt_digest data rounds
    salt] is the hash string computed for [data] with the salt the call
    drew; [bcrypt_check data hash] is the comparison. *)
Class Bcrypt : Type := {
  bcrypt_digest : string → nat → string → string;
  bcrypt_check : string → string → bool
}.

(** The one law taken from the package: a hash matches the data it was
    made from. *)
Definition bcrypt_sound `{Bcrypt} : Prop :=
  ∀ data rounds salt,
    bcrypt_check data (bcrypt_digest data rounds salt) = true.

Module bcrypt.

(** [bcrypt.hash(data, rounds)]: rejects data that is not a string. *)
Definition hash `{Bcrypt} (salt : string) (data : jsval) (rounds : nat)
  : M string :=
  match data with
  | JUndefined | JNull => throw (Error "data and salt arguments required")
  | JStr s => ret (bcrypt_digest s rounds salt)
  | JBool _ =>
      throw (Error "data must be a string or Buffer and salt must either be a salt string or a number of rounds")
  end.

(** [bcrypt.compare(data, hash)] *)
Definition compare `{Bcrypt} (data hashed : jsval) : M bool :=
  match data, hashed with
  | JStr d, JStr h => ret (bcrypt_check d h)
  | (JUndefined | JNull), _ | _, (JUndefined | JNull) =>
      throw (Error "data and hash arguments required")
  | _, _ => throw (Error "data and hash must be strings")
  end.

End bcrypt.

(** ** [src/models/userModel.js] *)

Module userModel.
Section model.

Context `{Bcrypt}.

(** The identifier [public.user_list] assigns to a row inserted into the
    given table (its declaration is not part of the sources). *)
Variable new_id : list user_row → string.

(** [result.rows[0] || null]; a row object is never falsy. *)
Definition findUserByUsername (username : jsval) : M (option user_row) :=
  result ← pool_query (sql.select_user_by_username (to_param username));
  mret (head (rows result)).

Definition findUserByEmail (email : jsval) : M (option user_row) :=
  result ← pool_query (sql.select_user_by_email (to_param email));
  mret (head (rows result)).

Definition checkIfAdmin (user_id : jsval) : M bool :=
  try_catch
    (result ← pool_query (sql.select_admin_by_user_id (to_param user_id));
     mret (bool_decide (0 < length (rows result))))
    (λ error, throw (Error "Database query error")).

(** [salt] is the salt [bcrypt.hash] draws during this call. *)
Definition createUser (salt : string) (userData : object) : M unit :=
  let first_name := get userData "first_name" in
  let last_name_1 := get userData "last_name_1" in
  let last_name_2 := get userData "last_name_2" in
  let username := get userData "username" in
  let user_password := get userData "user_password" in
  let email := get userData "email" in
  try_catch
    (hashedPassword ← bcrypt.hash salt user_password 10;
     pool_query
       (sql.insert_user new_id
          (to_param first_name) (to_param last_name_1)
          (to_param last_name_2) (to_param username)
          (Some hashedPassword) (to_param email));;
     mret tt)
    (λ error,
       throw (Error ("Error al crear el usuario: " +:+ message error))).

Definition verifyUsers (usernames : list jsval) : M unit :=
  try_catch
    (pool_query (sql.verify_usernames (to_param <$> usernames));;
     mret tt)
    (λ error,
       throw (Error ("Error al verificar usuarios: " +:+ message error))).

Definition deleteUserById (userId : jsval) : M (query_result user_row) :=
  result ← pool_query (sql.delete_user_by_id (to_param userId));
  mret result.

Definition deleteUserByUsername (username : jsval)
  : M (query_result user_row) :=
  result ← pool_query (sql.delete_user_by_username (to_param username));
  mret result.

Definition updateUserById (userId : jsval) (updatedInfo : object)
  : M (query_result user_row) :=
  let first_name := get updatedInfo "first_name" in
  let last_name1 := get updatedInfo "last_name1" in
  let last_name2 := get updatedInfo "last_name2" in
  let email := get updatedInfo "email" in
  try_catch
    (result ← pool_query
                (sql.update_user
                   (to_param first_name) (to_param last_name1)
                   (to_param last_name2) (to_param email)
                   (to_param userId));
     mret result)
    (λ error,
       console_error
         [LogVal (JStr "Error al actualizar el usuario:"); LogErr error];;
       throw error).

Definition getUserById (userId : jsval) : M (option user_row) :=
  result ← pool_query (sql.select_user_by_id (to_param userId));
  mret (head (rows result)).

Definition verifyPassword (password hashedPassword : jsval) : M bool :=
  bcrypt.compare password hashedPassword.

(** [salt] is the salt [bcrypt.hash] draws during this call. *)
Definition updatePassword (salt : string) (userId newPassword : jsval)
  : M unit :=
  hashedPassword ← bcrypt.hash salt newPassword 10;
  pool_query
    (sql.update_password (Some hashedPassword) (to_param userId));;
  mret tt.

End model.
End userModel.

(** ** [src/controllers/userController.js] *)

(** [res.status(status).json(json)] *)
Record response : Type := mk_response {
  status : nat;
  json : object
}.

Module userController.

Definition loginUser (body : object) : M response :=
  console_log [LogVal (JStr "Login request received: "); LogObj body];;
  let username := get body "username" in
  let password := get body "password" in
  try_catch
    (user ← userModel.findUserByUsername username;
     match user with
     | None =>
         mret (mk_response 404
                 {[ "message" := JStr "Usuario no encontrado" ]})
     | Some user =>
         let isPasswordValid :=
           strict_eq (from_param (user_password user)) password in
         if negb isPasswordValid then
           mret (mk_response 401
                   {[ "message" := JStr "Contraseña incorrecta" ]})
         else if negb (verified user) then
           mret (mk_response 403
                   {[ "message" :=
                        JStr "Usuario sin verificar. Un administrador te validará pronto." ]})
         else
           console_log
             [LogVal (JStr ("User " +:+ to_string username
                            +:+ " logged in successfully."))];;
           mret (mk_response 200
                   (<[ "user_id" := JStr (id user) ]>
                      {[ "message" := JStr "¡Acceso correcto!" ]}))
     end)
    (λ error,
       console_error
         [LogVal (JStr "Error durante el acceso:");
          LogVal (JStr (message error))];;
       mret (mk_response 500
               {[ "message" := JStr "Error durante el acceso" ]})).

Definition checkAdmin (body : object) : M response :=
  let user_id := get body "user_id" in
  try_catch
    (isAdmin ← userModel.checkIfAdmin user_id;
     if (isAdmin : bool) then
       mret (mk_response 200
               {[ "message" :=
                    JStr "Entrando en ajustes como administrador" ]})
     else
       mret (mk_response 200
               {[ "message" := JStr "Entrando en ajustes de usuario" ]}))
    (λ error,
       console_error
         [LogVal (JStr "Error checking admin status:");
          LogVal (JStr (message error))];;
       mret (mk_response 500
               {[ "message" := JStr "Internal server error" ]})).

End userController.

(** ** The vocabulary of the workflow *)

(** The names the design gives to the replies the handlers send. *)
Module outcomes.

Definition UserNotFound : response :=
  mk_response 404 {[ "message" := JStr "Usuario no encontrado" ]}.

Definition InvalidPassword : response :=
  mk_response 401 {[ "message" := JStr "Contraseña incorrecta" ]}.

Definition NotVerified : response :=
  mk_response 403
    {[ "message" :=
         JStr "Usuario sin verificar. Un administrador te validará pronto." ]}.

Definition Success (user_id : string) : response :=
  mk_response 200
    (<[ "user_id" := JStr user_id ]>
       {[ "message" := JStr "¡Acceso correcto!" ]}).

Definition LoginStorageError : response :=
  mk_response 500 {[ "message" := JStr "Error durante el acceso" ]}.

Definition IsAdmin : response :=
  mk_response 200
    {[ "message" := JStr "Entrando en ajustes como administrador" ]}.

Definition IsRegularUser : response :=
  mk_response 200 {[ "message" := JStr "Entrando en ajustes de usuario" ]}.

Definition StorageError : response :=
  mk_response 500 {[ "message" := JStr "Internal server error" ]}.

End outcomes.

(** The row [findUserByUsername] resolves to on a working connection. *)
Definition find_user (db : database) (username_ : jsval) : option user_row :=
  head (filter (λ r, sql_eq (username r) (to_param username_)) (user_list db)).

(** The test [loginUser] applies to the password it was sent. *)
Definition isPasswordValid (user : user_row) (password : jsval) : bool :=
  strict_eq (from_param (user_password user)) password.

(** The reply of [loginUser] as a function of the table. *)
Definition login_reply (db : database) (body : object) : response :=
  match find_user db (get body "username") with
  | None => outcomes.UserNotFound
  | Some user =>
      if negb (isPasswordValid user (get body "password")) then
        outcomes.InvalidPassword
      else if negb (verified user) then outcomes.NotVerified
      else outcomes.Success (id user)
  end.

(** The rows a statement with [WHERE id = $n] touches. *)
Definition targets (userId : jsval) (r : user_row) : bool :=
  sql_eq (Some (id r)) (to_param userId).

(** The membership [checkIfAdmin] asks the store about. *)
Definition in_admin_list (db : database) (user_id : jsval) : Prop :=
  ∃ a, a ∈ admin_list db ∧ to_param user_id = Some a.

(** [null] or [undefined]: what an absent or null input field reads as. *)
Definition nullish (v : jsval) : Prop := v = JUndefined ∨ v = JNull.

(** A console line shows the text [s]: as an argument of its own, or as
    the value of a property of an object argument. *)
Definition shows (s : string) (e : log_entry) : Prop :=
  ∃ a, a ∈ log_args e ∧
       match a with
       | LogVal v => v = JStr s
       | LogObj o => ∃ k, o !! k = Some (JStr s)
       | LogErr err => message err = s
       end.

(** The row [createUser] sends to the table for a string password. *)
Definition created_row `{Bcrypt} (new_id : list user_row → string)
    (salt : string) (userData : object) (pw : string)
    (table : list user_row) : user_row :=
  {| id := new_id table;
     first_name := to_param (get userData "first_name");
     last_name_1 := to_param (get userData "last_name_1");
     last_name_2 := to_param (get userData "last_name_2");
     username := to_param (get userData "username");
     user_password := Some (bcrypt_digest pw 10 salt);
     email := to_param (get userData "email");
     verified := verified_default |}.

(** ** Concrete inputs *)

(** A stand-in for the bcrypt package, for running the model on concrete
    inputs: the hash is the data, a separator and the salt. *)
Definition sample_digest (data : string) (rounds : nat) (salt : string)
  : string :=
  data +:+ "$" +:+ salt.

Definition sample_check (data hashed : string) : bool :=
  String.prefix (data +:+ "$") hashed.

Definition sample_bcrypt : Bcrypt :=
  {| bcrypt_digest := sample_digest; bcrypt_check := sample_check |}.

(** Identifiers for concrete runs: the number of rows so far, in unary. *)
Definition sample_new_id (table : list user_row) : string :=
  "u" +:+ String.concat "" (replicate (length table) "i").

Definition empty_world : world := mk_world (mk_database [] [] None) [].

Definition alice_data : object :=
  {[ "first_name" := JStr "Alice"; "username" := JStr "alice";
     "user_password" := JStr "correct";
     "email" := JStr "alice@example.org" ]}.

Definition mallory_data : object :=
  {[ "username" := JStr "mallory"; "user_password" := JStr "letmein";
     "email" := JStr "mallory@example.org"; "verified" := JBool true ]}.

Definition alice_row : user_row :=
  mk_user_row "1" (Some "Alice") None None (Some "alice") (Some "h")
    (Some "alice@example.org") false.

Definition alice_world : world :=
  mk_world (mk_database [alice_row] [] None) [].

Definition verified_alice_world : world :=
  mk_world (mk_database [sql.set_verified true alice_row] ["1"] None) [].

Definition carol_world : world :=
  mk_world
    (mk_database
       [mk_user_row "7" (Some "Carol") None None (Some "carol")
          (Some "pw123") (Some "carol@example.org") false]
       [] None)
    [].

Definition surname_only : object :=
  {[ "last_name1" := JStr "Lovelace"; "email" := JNull ]}.

Definition creation_keys : object :=
  {[ "last_name_1" := JStr "Byron"; "last_name_2" := JStr "King" ]}.

(** ** Further vocabulary: lookups, invariants, a failing connection *)

(** The row [findUserByEmail] resolves to on a working connection. *)
Definition find_email (db : database) (email_ : jsval) : option user_row :=
  head (filter (λ r, sql_eq (email r) (to_param email_)) (user_list db)).

(** The row [getUserById] resolves to on a working connection. *)
Definition find_id (db : database) (userId : jsval) : option user_row :=
  head (filter (λ r, sql_eq (Some (id r)) (to_param userId)) (user_list db)).

(** Every row has a password: the column is not NULL. *)
Definition passwords_set (table : list user_row) : Prop :=
  ∀ r, r ∈ table → user_password r ≠ None.

(** A value that is not a JavaScript string. *)
Definition not_a_string (v : jsval) : Prop := ∀ s, v ≠ JStr s.

(** The message [bcrypt.hash] rejects a non-string with. *)
Definition hash_rejection (v : jsval) : string :=
  match v with
  | JUndefined | JNull => "data and salt arguments required"
  | _ => "data must be a string or Buffer and salt must either be a salt string or a number of rounds"
  end.

(** A store with one user and one admin whose connection is down. *)
Definition down_world : world :=
  mk_world (mk_database [alice_row] ["1"] (Some "connection refused")) [].

(** Two users, the second verified and an administrator. *)
Definition bob_row : user_row :=
  mk_user_row "2" (Some "Bob") (Some "Builder") None (Some "bob")
    (Some "h2") (Some "bob@example.org") true.

Definition two_users_world : world :=
  mk_world (mk_database [alice_row; bob_row] ["2"] None) [].

(** A user whose e-mail column is NULL. *)
Definition nomail_world : world :=
  mk_world
    (mk_database
       [mk_user_row "9" None None None (Some "nomail") (Some "h") None true]
       [] None)
    [].

Definition no_password : object :=
  {[ "username" := JStr "dave"; "email" := JStr "dave@example.org" ]}.

(** * Properties *)

(** Unfolds the monad so that a handler becomes a function of the world. *)
Ltac run_monad :=
  unfold mbind, M_bind, bind, try_catch, pool_query, console_log,
    console_error, mret, M_ret, ret, throw; simpl.

(** ** Values, parameters and SQL comparisons *)

Lemma get_insert_eq (o : object) (k : string) (v : jsval) :
  get (<[k := v]> o) k = v.
Proof. unfold get. by rewrite lookup_insert_eq. Qed.

Lemma get_insert_ne (o : object) (k k' : string) (v : jsval) :
  k ≠ k' → get (<[k := v]> o) k' = get o k'.
Proof. intros Hne. unfold get. by rewrite lookup_insert_ne. Qed.

Lemma get_singleton (k : string) (v : jsval) :
  get ({[ k := v ]} : object) k = v.
Proof. unfold get. by rewrite lookup_singleton_eq. Qed.

Lemma to_param_nullish (v : jsval) : nullish v ↔ to_param v = None.
Proof.
  unfold nullish. destruct v as [| |b|s]; simpl; split; try done.
  - by left.
  - by right.
  - by intros [|].
  - by intros [|].
Qed.

Lemma sql_eq_refl (s : string) : sql_eq (Some s) (Some s) = true.
Proof. unfold sql_eq. by rewrite bool_decide_eq_true. Qed.

Lemma sql_eq_true (col p : param) :
  sql_eq col p = true ↔ ∃ s, col = Some s ∧ p = Some s.
Proof.
  unfold sql_eq. destruct col as [a|], p as [b|]; simpl.
  - rewrite bool_decide_eq_true. split.
    + intros ->. eauto.
    + intros (s & [= ->] & [= ->]). done.
  - split; [done | by intros (s & _ & [=])].
  - split; [done | by intros (s & [=] & _)].
  - split; [done | by intros (s & [=] & _)].
Qed.

Lemma sql_eq_any_true (col : param) (ps : list param) :
  sql_eq_any col ps = true ↔ ∃ s, col = Some s ∧ Some s ∈ ps.
Proof.
  unfold sql_eq_any. rewrite existsb_exists. split.
  - intros (p & Hin & Heq). apply sql_eq_true in Heq as (s & -> & ->).
    exists s. split; [done|]. by apply list_elem_of_In.
  - intros (s & -> & Hin). exists (Some s). split.
    + by apply list_elem_of_In.
    + apply sql_eq_refl.
Qed.

Lemma targets_JStr (uid : string) (r : user_row) :
  targets (JStr uid) r = true ↔ id r = uid.
Proof. unfold targets, sql_eq; simpl. by rewrite bool_decide_eq_true. Qed.

Lemma targets_JStr_false (uid : string) (r : user_row) :
  targets (JStr uid) r = false ↔ id r ≠ uid.
Proof. unfold targets, sql_eq; simpl. by rewrite bool_decide_eq_false. Qed.

Lemma sample_check_digest : @bcrypt_sound sample_bcrypt.
Proof.
  intros data rounds salt. simpl. unfold sample_check, sample_digest.
  induction data as [|c a IH]; simpl.
  - by destruct salt.
  - destruct (Ascii.ascii_dec c c); [exact IH | done].
Qed.

(** ** Lookups by username *)

Lemma find_user_None (db : database) (v : jsval) :
  find_user db v = None ↔
  ∀ r, r ∈ user_list db → sql_eq (username r) (to_param v) = false.
Proof.
  unfold find_user. rewrite head_None. split.
  - intros Hnil r Hr. destruct (sql_eq _ _) eqn:E; [|done].
    assert (r ∈ filter (λ r, sql_eq (username r) (to_param v)) (user_list db))
      as Hin.
    { apply list_elem_of_filter. split; [by rewrite E | done]. }
    rewrite Hnil in Hin. by apply not_elem_of_nil in Hin.
  - intros Hall. induction (user_list db) as [|r l IH]; [done|].
    rewrite filter_cons, decide_False.
    + apply IH. intros r' Hr'. apply Hall. by right.
    + rewrite (Hall r); [|by left]. intros Hhit. exact Hhit.
Qed.

Lemma find_user_Some (db : database) (v : jsval) (u : user_row) :
  find_user db v = Some u →
  u ∈ user_list db ∧ ∃ name, to_param v = Some name ∧ username u = Some name.
Proof.
  unfold find_user. intros Hh. apply head_Some_elem_of in Hh.
  apply list_elem_of_filter in Hh as [Hhit Hin]. split; [done|].
  apply Is_true_true, sql_eq_true in Hhit as (s & Hu & Hp). eauto.
Qed.

Lemma findUserByUsername_run (username_ : jsval) (w : world) :
  fault (pool w) = None →
  userModel.findUserByUsername username_ w
  = (Return (find_user (pool w) username_), w).
Proof.
  intros Hf. destruct w as [db c]; simpl in *.
  unfold userModel.findUserByUsername. run_monad. by rewrite Hf.
Qed.

Lemma findUserByUsername_fault (username_ : jsval) (w : world) (msg : string) :
  fault (pool w) = Some msg →
  userModel.findUserByUsername username_ w = (Throw (Error msg), w).
Proof.
  intros Hf. unfold userModel.findUserByUsername. run_monad. by rewrite Hf.
Qed.

(** ** Running the model functions *)

Section model_runs.

Context `{Bcrypt} (new_id : list user_row → string).

Lemma createUser_run salt (userData : object) pw (w : world) :
  fault (pool w) = None →
  get userData "user_password" = JStr pw →
  userModel.createUser new_id salt userData w
  = (Return tt,
     mk_world
       (sql.with_users
          (user_list (pool w)
           ++ [created_row new_id salt userData pw (user_list (pool w))])
          (pool w))
       (console w)).
Proof.
  intros Hf Hpw. unfold userModel.createUser, bcrypt.hash.
  rewrite Hpw. run_monad. by rewrite Hf.
Qed.

Lemma createUser_returns salt (userData : object) (w : world) :
  (userModel.createUser new_id salt userData w).1 = Return tt →
  fault (pool w) = None ∧ ∃ pw, get userData "user_password" = JStr pw.
Proof.
  unfold userModel.createUser, bcrypt.hash.
  destruct (get userData "user_password") as [| |b|pw]; run_monad; try done.
  destruct (fault (pool w)); [done|]. eauto.
Qed.

Lemma createUser_throws salt (userData : object) (w : world) e :
  (userModel.createUser new_id salt userData w).1 = Throw e →
  (userModel.createUser new_id salt userData w).2 = w.
Proof.
  unfold userModel.createUser, bcrypt.hash.
  destruct (get userData "user_password") as [| |b|pw]; run_monad; try done.
  by destruct (fault (pool w)).
Qed.

Lemma verifyUsers_run (usernames : list jsval) (w : world) :
  fault (pool w) = None →
  userModel.verifyUsers usernames w
  = (Return tt,
     mk_world (sql.verify_usernames (to_param <$> usernames) (pool w)).2
       (console w)).
Proof.
  intros Hf. unfold userModel.verifyUsers. run_monad. by rewrite Hf.
Qed.

Lemma updateUserById_run (userId : jsval) (updatedInfo : object) (w : world) :
  fault (pool w) = None →
  userModel.updateUserById userId updatedInfo w
  = (Return
       (sql.update_user
          (to_param (get updatedInfo "first_name"))
          (to_param (get updatedInfo "last_name1"))
          (to_param (get updatedInfo "last_name2"))
          (to_param (get updatedInfo "email"))
          (to_param userId) (pool w)).1,
     mk_world
       (sql.update_user
          (to_param (get updatedInfo "first_name"))
          (to_param (get updatedInfo "last_name1"))
          (to_param (get updatedInfo "last_name2"))
          (to_param (get updatedInfo "email"))
          (to_param userId) (pool w)).2
       (console w)).
Proof.
  intros Hf. unfold userModel.updateUserById. run_monad. by rewrite Hf.
Qed.

(** A row of the table after [updateUserById] on a working connection. *)
Lemma updateUserById_lookup (userId : jsval) (updatedInfo : object)
    (w : world) (i : nat) (r : user_row) :
  fault (pool w) = None →
  user_list (pool w) !! i = Some r →
  user_list (pool (userModel.updateUserById userId updatedInfo w).2) !! i
  = Some (if targets userId r
          then sql.merge_profile
                 (to_param (get updatedInfo "first_name"))
                 (to_param (get updatedInfo "last_name1"))
                 (to_param (get updatedInfo "last_name2"))
                 (to_param (get updatedInfo "email")) r
          else r).
Proof.
  intros Hf Hi. rewrite updateUserById_run by done. simpl.
  by rewrite list_lookup_fmap, Hi.
Qed.

(** [updateUserById] reads none of the keys [last_name_1], [last_name_2]. *)
Lemma updateUserById_unread_keys (userId : jsval) (updatedInfo : object)
    (a b : jsval) :
  userModel.updateUserById userId
    (<[ "last_name_1" := a ]> (<[ "last_name_2" := b ]> updatedInfo))
  = userModel.updateUserById userId updatedInfo.
Proof.
  unfold userModel.updateUserById.
  by rewrite !get_insert_ne.
Qed.

Lemma updatePassword_run salt (userId : jsval) pw (w : world) :
  fault (pool w) = None →
  userModel.updatePassword salt userId (JStr pw) w
  = (Return tt,
     mk_world
       (sql.update_password (Some (bcrypt_digest pw 10 salt))
          (to_param userId) (pool w)).2
       (console w)).
Proof.
  intros Hf. unfold userModel.updatePassword, bcrypt.hash.
  run_monad. by rewrite Hf.
Qed.

Lemma checkIfAdmin_run (user_id : jsval) (w : world) :
  fault (pool w) = None →
  userModel.checkIfAdmin user_id w
  = (Return
       (bool_decide
          (0 < length (filter (λ a, sql_eq (Some a) (to_param user_id))
                         (admin_list (pool w))))),
     w).
Proof.
  intros Hf. destruct w as [db c]; simpl in *.
  unfold userModel.checkIfAdmin. run_monad. by rewrite Hf.
Qed.

Lemma checkIfAdmin_fault (user_id : jsval) (w : world) msg :
  fault (pool w) = Some msg →
  userModel.checkIfAdmin user_id w
  = (Throw (Error "Database query error"), w).
Proof.
  intros Hf. unfold userModel.checkIfAdmin. run_monad. by rewrite Hf.
Qed.

Lemma filter_username_unmatched (name : string) (l : list user_row)
    (g : user_row → user_row) :
  (∀ r, username (g r) = username r) →
  (∀ r, r ∈ l → sql_eq (username r) (Some name) = false) →
  filter (λ r, sql_eq (username r) (Some name)) (g <$> l) = [].
Proof.
  intros Hg Hall. induction l as [|r l IH]; [done|].
  rewrite fmap_cons, filter_cons, decide_False.
  - apply IH. intros r' Hr'. apply Hall. by right.
  - rewrite Hg, (Hall r); [|by left]. intros Hhit. exact Hhit.
Qed.

(** A user created under a free username and then verified is the row
    [find_user] returns for that username, with the hash in its password
    column and [verified] set. *)
Lemma find_created_verified salt (userData : object) name pw (w : world) :
  fault (pool w) = None →
  find_user (pool w) (JStr name) = None →
  get userData "username" = JStr name →
  get userData "user_password" = JStr pw →
  find_user
    (pool (userModel.verifyUsers [JStr name]
             (userModel.createUser new_id salt userData w).2).2)
    (JStr name)
  = Some (sql.set_verified true
            (created_row new_id salt userData pw (user_list (pool w)))).
Proof.
  intros Hf Hfree Hname Hpw.
  rewrite (createUser_run salt userData pw w Hf Hpw).
  assert (username (created_row new_id salt userData pw (user_list (pool w)))
          = Some name) as Hrow.
  { unfold created_row; simpl. by rewrite Hname. }
  remember (created_row new_id salt userData pw (user_list (pool w))) as row.
  simpl. rewrite verifyUsers_run by done.
  unfold find_user, sql.verify_usernames, sql_eq_any; simpl.
  rewrite fmap_app, filter_app.
  pose proof (proj1 (find_user_None _ _) Hfree) as Hnone. simpl in Hnone.
  rewrite (filter_username_unmatched name (user_list (pool w))); [|..|done].
  2:{ intros r. by destruct (sql_eq _ _ || false). }
  simpl. rewrite Hrow, sql_eq_refl. simpl.
  rewrite filter_cons, decide_True; [done|].
  simpl. by rewrite Hrow, sql_eq_refl.
Qed.

(** What [createUser] keeps of the password is its bcrypt hash, and it
    writes nothing to the console. *)
Lemma createUser_stores_hash salt (userData : object) pw (w : world) :
  fault (pool w) = None →
  get userData "user_password" = JStr pw →
  ∃ row,
    user_list (pool (userModel.createUser new_id salt userData w).2)
    = user_list (pool w) ++ [row]
    ∧ user_password row = Some (bcrypt_digest pw 10 salt)
    ∧ console (userModel.createUser new_id salt userData w).2 = console w.
Proof.
  intros Hf Hpw. rewrite (createUser_run salt userData pw w Hf Hpw).
  by eexists.
Qed.

End model_runs.

(** ** Running [loginUser] and [checkAdmin] *)

Lemma loginUser_reply (body : object) (w : world) :
  fault (pool w) = None →
  (userController.loginUser body w).1 = Return (login_reply (pool w) body).
Proof.
  intros Hf. destruct w as [db c]; simpl in *.
  unfold userController.loginUser, userModel.findUserByUsername, login_reply,
    find_user, isPasswordValid.
  run_monad. rewrite Hf.
  destruct (head _) as [u|]; [|done].
  destruct (negb (strict_eq _ _)); [done|].
  by destruct (negb (verified u)).
Qed.

Lemma loginUser_fault (body : object) (w : world) (msg : string) :
  fault (pool w) = Some msg →
  (userController.loginUser body w).1 = Return outcomes.LoginStorageError.
Proof.
  intros Hf. unfold userController.loginUser, userModel.findUserByUsername.
  run_monad. by rewrite Hf.
Qed.

Lemma loginUser_pool (body : object) (w : world) :
  pool (userController.loginUser body w).2 = pool w.
Proof.
  destruct w as [db c].
  unfold userController.loginUser, userModel.findUserByUsername.
  run_monad. destruct (fault db); [done|].
  destruct (head _) as [u|]; [|done].
  destruct (negb (strict_eq _ _)); [done|].
  by destruct (negb (verified u)).
Qed.

Lemma loginUser_console (body : object) (w : world) :
  ∃ rest,
    console (userController.loginUser body w).2
    = console w
      ++ mk_log Stdout [LogVal (JStr "Login request received: "); LogObj body]
      :: rest.
Proof.
  destruct w as [db c].
  unfold userController.loginUser, userModel.findUserByUsername.
  run_monad. destruct (fault db); simpl.
  { rewrite <- app_assoc. by eexists. }
  destruct (head _) as [u|]; [|by eexists].
  destruct (negb (strict_eq _ _)); [by eexists|].
  destruct (negb (verified u)); [by eexists|].
  simpl. rewrite <- app_assoc. by eexists.
Qed.

Lemma reply_status_inj (r1 r2 : response) :
  (Return r1 : outcome response) = Return r2 → status r1 = status r2.
Proof. by intros [= ->]. Qed.

Lemma admin_rows_nonempty (db : database) (v : jsval) :
  0 < length (filter (λ a, sql_eq (Some a) (to_param v)) (admin_list db))
  ↔ in_admin_list db v.
Proof.
  unfold in_admin_list. split.
  - intros Hlen.
    destruct (filter _ _) as [|a l] eqn:E; [simpl in Hlen; lia|].
    assert (a ∈ filter (λ a, sql_eq (Some a) (to_param v)) (admin_list db))
      as Hin by (rewrite E; by left).
    apply list_elem_of_filter in Hin as [Hhit Hin].
    apply Is_true_true, sql_eq_true in Hhit as (s & [= ->] & Hp). eauto.
  - intros (a & Hin & Hp).
    assert (a ∈ filter (λ a, sql_eq (Some a) (to_param v)) (admin_list db))
      as Hfil.
    { apply list_elem_of_filter. split; [|done].
      rewrite Hp. apply Is_true_true, sql_eq_refl. }
    destruct (filter _ _); [by apply not_elem_of_nil in Hfil | simpl; lia].
Qed.

Lemma checkAdmin_reply (body : object) (w : world) :
  fault (pool w) = None →
  (userController.checkAdmin body w).1
  = Return (if bool_decide
                 (0 < length (filter (λ a, sql_eq (Some a)
                                             (to_param (get body "user_id")))
                                (admin_list (pool w))))
            then outcomes.IsAdmin else outcomes.IsRegularUser).
Proof.
  intros Hf. unfold userController.checkAdmin, userModel.checkIfAdmin.
  run_monad. rewrite Hf. by destruct (bool_decide _).
Qed.

Lemma admin_replies_distinct :
  outcomes.StorageError ≠ outcomes.IsAdmin
  ∧ outcomes.StorageError ≠ outcomes.IsRegularUser
  ∧ outcomes.IsAdmin ≠ outcomes.IsRegularUser.
Proof.
  repeat split; intros Heq.
  - apply (f_equal status) in Heq. discriminate Heq.
  - apply (f_equal status) in Heq. discriminate Heq.
  - apply (f_equal (λ r, json r !! "message")) in Heq.
    vm_compute in Heq. discriminate Heq.
Qed.

(** * The claims *)

(** ** Login *)

(** C1: what [loginUser] does with a user stored by [createUser].  The
    password column holds the bcrypt hash, [verifyPassword] accepts the
    plaintext against it, and [loginUser], which tests the column against
    the plaintext with [===], answers InvalidPassword to the right
    password whenever the hash differs from the plaintext. *)
Theorem loginUser_rejects_hashed_password `{Bcrypt}
    (new_id : list user_row → string) (salt : string) (userData : object)
    (name pw : string) (w : world) :
  bcrypt_sound →
  fault (pool w) = None →
  find_user (pool w) (JStr name) = None →
  get userData "username" = JStr name →
  get userData "user_password" = JStr pw →
  bcrypt_digest pw 10 salt ≠ pw →
  ∃ user,
    find_user
      (pool (userModel.verifyUsers [JStr name]
               (userModel.createUser new_id salt userData w).2).2)
      (JStr name) = Some user
    ∧ verified user = true
    ∧ (userModel.verifyPassword (JStr pw) (from_param (user_password user))
         (userModel.verifyUsers [JStr name]
            (userModel.createUser new_id salt userData w).2).2).1
      = Return true
    ∧ (userController.loginUser
         {[ "username" := JStr name; "password" := JStr pw ]}
         (userModel.verifyUsers [JStr name]
            (userModel.createUser new_id salt userData w).2).2).1
      = Return outcomes.InvalidPassword.
Proof.
  intros Hsound Hf Hfree Hname Hpw Hneq.
  pose proof (find_created_verified new_id salt userData name pw w
                Hf Hfree Hname Hpw) as Hfind.
  assert (fault (pool (userModel.verifyUsers [JStr name]
                         (userModel.createUser new_id salt userData w).2).2)
          = None) as Hf2.
  { rewrite (createUser_run new_id salt userData pw w Hf Hpw). simpl.
    by rewrite verifyUsers_run. }
  set (w2 := (userModel.verifyUsers [JStr name]
                (userModel.createUser new_id salt userData w).2).2) in *.
  eexists. split; [exact Hfind|]. split; [done|]. split.
  - simpl. unfold userModel.verifyPassword, bcrypt.compare. run_monad.
    by rewrite Hsound.
  - rewrite (loginUser_reply _ w2 Hf2). unfold login_reply.
    rewrite get_insert_eq, Hfind.
    rewrite get_insert_ne by done. rewrite get_singleton.
    unfold isPasswordValid, strict_eq; simpl.
    rewrite bool_decide_eq_false_2; [done|]. by intros [= ?].
Qed.

Lemma loginUser_rejects_hashed_password_witness :
  ∃ user,
    find_user
      (pool (userModel.verifyUsers [JStr "alice"]
               (@userModel.createUser sample_bcrypt sample_new_id "salt"
                  alice_data empty_world).2).2)
      (JStr "alice") = Some user
    ∧ verified user = true
    ∧ (@userModel.verifyPassword sample_bcrypt (JStr "correct")
         (from_param (user_password user))
         (userModel.verifyUsers [JStr "alice"]
            (@userModel.createUser sample_bcrypt sample_new_id "salt"
               alice_data empty_world).2).2).1
      = Return true
    ∧ (userController.loginUser
         {[ "username" := JStr "alice"; "password" := JStr "correct" ]}
         (userModel.verifyUsers [JStr "alice"]
            (@userModel.createUser sample_bcrypt sample_new_id "salt"
               alice_data empty_world).2).2).1
      = Return outcomes.InvalidPassword.
Proof.
  apply (@loginUser_rejects_hashed_password sample_bcrypt sample_new_id
           "salt" alice_data "alice" "correct" empty_world).
  - exact sample_check_digest.
  - reflexivity.
  - reflexivity.
  - vm_compute; reflexivity.
  - vm_compute; reflexivity.
  - vm_compute; discriminate.
Defined.

(** C2: on a working connection [loginUser] decides in a fixed order.  No
    row for the username: UserNotFound.  Otherwise, password test failed:
    InvalidPassword.  Otherwise, [verified] false: NotVerified.  Otherwise
    Success with the identifier of the row.  NotVerified is therefore only
    ever sent for a row that passed the password test, and the tables are
    left as they were. *)
Theorem loginUser_decision_order (body : object) (w : world) :
  fault (pool w) = None →
  (find_user (pool w) (get body "username") = None →
     (userController.loginUser body w).1 = Return outcomes.UserNotFound)
  ∧ (∀ user, find_user (pool w) (get body "username") = Some user →
       (isPasswordValid user (get body "password") = false →
          (userController.loginUser body w).1
          = Return outcomes.InvalidPassword)
       ∧ (isPasswordValid user (get body "password") = true →
          verified user = false →
          (userController.loginUser body w).1 = Return outcomes.NotVerified)
       ∧ (isPasswordValid user (get body "password") = true →
          verified user = true →
          (userController.loginUser body w).1
          = Return (outcomes.Success (id user))))
  ∧ ((userController.loginUser body w).1 = Return outcomes.NotVerified →
       ∃ user, find_user (pool w) (get body "username") = Some user
               ∧ isPasswordValid user (get body "password") = true
               ∧ verified user = false)
  ∧ pool (userController.loginUser body w).2 = pool w.
Proof.
  intros Hf. rewrite (loginUser_reply body w Hf). unfold login_reply.
  split; [|split; [|split]].
  - by intros ->.
  - intros user ->. repeat split.
    + by intros ->.
    + by intros -> ->.
    + by intros -> ->.
  - destruct (find_user _ _) as [user|].
    + destruct (isPasswordValid _ _) eqn:Hp; simpl.
      * destruct (verified user) eqn:Hv; simpl; intros Heq.
        -- apply reply_status_inj in Heq. discriminate Heq.
        -- by exists user.
      * intros Heq. apply reply_status_inj in Heq. discriminate Heq.
    + intros Heq. apply reply_status_inj in Heq. discriminate Heq.
  - apply loginUser_pool.
Qed.

Lemma loginUser_decision_order_witness :
  (userController.loginUser
     {[ "username" := JStr "carol"; "password" := JStr "pw123" ]}
     carol_world).1
  = Return outcomes.NotVerified.
Proof.
  pose proof (loginUser_decision_order
                {[ "username" := JStr "carol"; "password" := JStr "pw123" ]}
                carol_world eq_refl) as (_ & Hfound & _).
  refine (proj1 (proj2 (Hfound _ _)) _ _); vm_compute; reflexivity.
Defined.

(** C3: the first thing [loginUser] does is write the request body to the
    console, so a body that carries the password as a string puts that
    string on a console line. *)
Theorem loginUser_logs_password (body : object) (pw : string) (w : world) :
  body !! "password" = Some (JStr pw) →
  ∃ entry rest,
    console (userController.loginUser body w).2 = console w ++ entry :: rest
    ∧ log_stream entry = Stdout
    ∧ LogObj body ∈ log_args entry
    ∧ shows pw entry.
Proof.
  intros Hpw. destruct (loginUser_console body w) as [rest Hrest].
  eexists _, rest. split; [exact Hrest|]. split; [done|]. split.
  - simpl. set_solver.
  - exists (LogObj body). split; [simpl; set_solver|]. eauto.
Qed.

Lemma loginUser_logs_password_witness :
  ∃ entry rest,
    console
      (userController.loginUser
         {[ "username" := JStr "alice"; "password" := JStr "hunter2" ]}
         empty_world).2
    = console empty_world ++ entry :: rest
    ∧ log_stream entry = Stdout
    ∧ LogObj {[ "username" := JStr "alice"; "password" := JStr "hunter2" ]}
        ∈ log_args entry
    ∧ shows "hunter2" entry.
Proof.
  apply (loginUser_logs_password
           {[ "username" := JStr "alice"; "password" := JStr "hunter2" ]}
           "hunter2" empty_world).
  vm_compute; reflexivity.
Defined.

(** ** [createUser] *)

(** C4: a [createUser] call that reaches the table (the connection works
    and the password is a string, which [bcrypt.hash] requires) appends
    exactly one row, and that row has [verified = false] whatever the
    fields of [userData] are; the rows already there keep their place. *)
Theorem createUser_verified_false `{Bcrypt}
    (new_id : list user_row → string) (salt : string) (userData : object)
    (pw : string) (w : world) :
  fault (pool w) = None →
  get userData "user_password" = JStr pw →
  ∃ row,
    (userModel.createUser new_id salt userData w).1 = Return tt
    ∧ user_list (pool (userModel.createUser new_id salt userData w).2)
      = user_list (pool w) ++ [row]
    ∧ username row = to_param (get userData "username")
    ∧ email row = to_param (get userData "email")
    ∧ verified row = false.
Proof.
  intros Hf Hpw. rewrite (createUser_run new_id salt userData pw w Hf Hpw).
  by eexists.
Qed.

Lemma createUser_verified_false_witness :
  ∃ row,
    (@userModel.createUser sample_bcrypt sample_new_id "salt" mallory_data
       carol_world).1 = Return tt
    ∧ user_list
        (pool (@userModel.createUser sample_bcrypt sample_new_id "salt"
                 mallory_data carol_world).2)
      = user_list (pool carol_world) ++ [row]
    ∧ username row = to_param (get mallory_data "username")
    ∧ email row = to_param (get mallory_data "email")
    ∧ verified row = false.
Proof.
  apply (@createUser_verified_false sample_bcrypt sample_new_id "salt"
           mallory_data "letmein" carol_world).
  - reflexivity.
  - vm_compute; reflexivity.
Defined.

(** ** [updateUserById] *)

(** C5: on a working connection [updateUserById] returns the query result
    for every identifier and every [updatedInfo], the empty object
    included, and afterwards the row with that identifier, still at its
    place, has [verified = false]; so has every row of the table that
    carries the identifier. *)
Theorem updateUserById_resets_verified (uid : string) (updatedInfo : object)
    (w : world) :
  fault (pool w) = None →
  (∃ result,
     (userModel.updateUserById (JStr uid) updatedInfo w).1 = Return result
     ∧ rowCount result
       = length (filter (λ r, id r = uid) (user_list (pool w))))
  ∧ (∀ i r, user_list (pool w) !! i = Some r → id r = uid →
       ∃ r', user_list
               (pool (userModel.updateUserById (JStr uid) updatedInfo w).2)
               !! i = Some r'
             ∧ id r' = uid ∧ verified r' = false)
  ∧ (∀ r', r' ∈ user_list
                  (pool (userModel.updateUserById (JStr uid) updatedInfo w).2) →
           id r' = uid → verified r' = false).
Proof.
  intros Hf. split; [|split].
  - rewrite updateUserById_run by done. eexists. split; [reflexivity|].
    simpl. f_equal. apply list_filter_iff. intros r.
    unfold sql_eq. apply bool_decide_spec.
  - intros i r Hi Hid. rewrite (updateUserById_lookup _ _ _ _ _ Hf Hi).
    rewrite (proj2 (targets_JStr uid r) Hid). by eexists.
  - intros r' Hin Hid.
    apply list_elem_of_lookup in Hin as [i Hi].
    destruct (user_list (pool w) !! i) as [r|] eqn:Hold.
    + rewrite (updateUserById_lookup _ _ _ _ _ Hf Hold) in Hi.
      injection Hi as <-.
      destruct (targets (JStr uid) r) eqn:E; [done|].
      apply targets_JStr_false in E. done.
    + rewrite updateUserById_run in Hi by done. simpl in Hi.
      by rewrite list_lookup_fmap, Hold in Hi.
Qed.

Lemma updateUserById_resets_verified_witness :
  ∃ r', user_list
          (pool (userModel.updateUserById (JStr "1") ∅
                   verified_alice_world).2) !! 0 = Some r'
        ∧ id r' = "1" ∧ verified r' = false.
Proof.
  pose proof (updateUserById_resets_verified "1" ∅ verified_alice_world
                eq_refl) as (_ & Hrow & _).
  exact (Hrow 0 (sql.set_verified true alice_row) eq_refl eq_refl).
Defined.

(** ** [verifyUsers] *)

(** C6: on a working connection [verifyUsers] returns normally for every
    array of usernames, whether or not each of them has a row.  Afterwards
    every row is at its place with all its columns but [verified] as
    before; a row whose username is in the array has [verified = true]; a
    row whose username is not in the array (or is NULL) is exactly as
    before, its [verified] flag included; no row is added or removed and
    [admin_list] is as before. *)
Theorem verifyUsers_sets_verified (usernames : list string) (w : world) :
  fault (pool w) = None →
  (userModel.verifyUsers (JStr <$> usernames) w).1 = Return tt
  ∧ length (user_list (pool (userModel.verifyUsers (JStr <$> usernames) w).2))
    = length (user_list (pool w))
  ∧ (∀ i r, user_list (pool w) !! i = Some r →
       ∃ r',
         user_list (pool (userModel.verifyUsers (JStr <$> usernames) w).2)
           !! i = Some r'
         ∧ id r' = id r
         ∧ first_name r' = first_name r
         ∧ last_name_1 r' = last_name_1 r
         ∧ last_name_2 r' = last_name_2 r
         ∧ username r' = username r
         ∧ user_password r' = user_password r
         ∧ email r' = email r
         ∧ ((∃ name, username r = Some name ∧ name ∈ usernames) →
              verified r' = true)
         ∧ (¬ (∃ name, username r = Some name ∧ name ∈ usernames) →
              r' = r ∧ verified r' = verified r))
  ∧ (∀ r', r' ∈ user_list
                  (pool (userModel.verifyUsers (JStr <$> usernames) w).2) →
           (∃ name, username r' = Some name ∧ name ∈ usernames) →
           verified r' = true)
  ∧ admin_list (pool (userModel.verifyUsers (JStr <$> usernames) w).2)
    = admin_list (pool w).
Proof.
  intros Hf. rewrite verifyUsers_run by done.
  unfold sql.verify_usernames, sql.with_users.
  cbn [fst snd pool user_list admin_list].
  assert (∀ r, sql_eq_any (username r) (to_param <$> (JStr <$> usernames))
               = true
               ↔ ∃ name, username r = Some name ∧ name ∈ usernames) as Hhit.
  { intros r. rewrite sql_eq_any_true. rewrite <- list_fmap_compose.
    split; intros (name & Hu & Hin); exists name; (split; [done|]).
    - apply list_elem_of_fmap in Hin as (n & [= ->] & Hn). done.
    - apply list_elem_of_fmap. by exists name. }
  split; [done|]. split; [by rewrite length_fmap|].
  split; [|split; [|done]].
  - intros i r Hi. rewrite list_lookup_fmap, Hi.
    cbn [fmap option_fmap option_map].
    destruct (sql_eq_any (username r) _) eqn:E;
      (eexists; split; [reflexivity|]);
      cbn [sql.set_verified id first_name last_name_1 last_name_2 username
             user_password email verified].
    + do 7 (split; [reflexivity|]). split; [done|].
      intros Hno. destruct Hno. by apply Hhit.
    + do 7 (split; [reflexivity|]). split; [|done].
      intros Hyes. apply Hhit in Hyes. congruence.
  - intros r' Hin Hname.
    apply list_elem_of_fmap in Hin as (r & -> & _).
    destruct (sql_eq_any (username r) _) eqn:E; [done|].
    apply Hhit in Hname. congruence.
Qed.

Lemma verifyUsers_sets_verified_witness :
  (userModel.verifyUsers [JStr "alice"; JStr "bob"] alice_world).1 = Return tt
  ∧ verified alice_row = false
  ∧ ∃ r',
      user_list
        (pool (userModel.verifyUsers [JStr "alice"; JStr "bob"]
                 alice_world).2) !! 0 = Some r'
      ∧ username r' = Some "alice"
      ∧ verified r' = true.
Proof.
  pose proof (verifyUsers_sets_verified ["alice"; "bob"] alice_world eq_refl)
    as (Hret & _ & Hrows & _).
  split; [exact Hret|]. split; [reflexivity|].
  destruct (Hrows 0 alice_row eq_refl)
    as (r' & Hr' & _ & _ & _ & _ & Hname & _ & _ & Hset & _).
  exists r'. split; [exact Hr'|]. split; [exact Hname|].
  apply Hset. exists "alice". split; [reflexivity | by left].
Defined.

(** ** [checkAdmin] *)

(** C7: on a working connection [checkAdmin] answers IsAdmin exactly when
    [admin_list] has a row for the identifier and IsRegularUser exactly
    when it has none; when the query fails, [checkIfAdmin] throws and
    [checkAdmin] answers StorageError, a reply different from both. *)
Theorem checkAdmin_classification (body : object) (w : world) :
  (fault (pool w) = None →
     ((userController.checkAdmin body w).1 = Return outcomes.IsAdmin
      ↔ in_admin_list (pool w) (get body "user_id"))
     ∧ ((userController.checkAdmin body w).1 = Return outcomes.IsRegularUser
        ↔ ¬ in_admin_list (pool w) (get body "user_id")))
  ∧ (∀ msg, fault (pool w) = Some msg →
       (userModel.checkIfAdmin (get body "user_id") w).1
       = Throw (Error "Database query error")
       ∧ (userController.checkAdmin body w).1 = Return outcomes.StorageError)
  ∧ outcomes.StorageError ≠ outcomes.IsAdmin
  ∧ outcomes.StorageError ≠ outcomes.IsRegularUser
  ∧ pool (userController.checkAdmin body w).2 = pool w.
Proof.
  destruct admin_replies_distinct as (Hsa & Hsr & _).
  split; [|split; [|split; [done|split; [done|]]]].
  - intros Hf. rewrite (checkAdmin_reply body w Hf).
    rewrite <- admin_rows_nonempty.
    destruct (bool_decide _) eqn:E.
    + apply bool_decide_eq_true in E. by repeat split.
    + apply bool_decide_eq_false in E. by repeat split.
  - intros msg Hf. split.
    + by rewrite (checkIfAdmin_fault _ _ msg Hf).
    + unfold userController.checkAdmin, userModel.checkIfAdmin.
      run_monad. by rewrite Hf.
  - destruct w as [db c].
    unfold userController.checkAdmin, userModel.checkIfAdmin.
    run_monad. destruct (fault db); [done|]. by destruct (bool_decide _).
Qed.

(** ** The merge of [updateUserById] *)

(** C8: on a working connection [updateUserById] merges.  In every row it
    leaves [id], [username] and [user_password] alone; a field of
    [updatedInfo] that is absent or null leaves its column alone; a field
    given as a string replaces its column in the row with the identifier;
    a row with another identifier is not touched at all, no row is added
    or removed, and [admin_list] is as before. *)
Theorem updateUserById_coalesce (uid : string) (updatedInfo : object)
    (w : world) :
  fault (pool w) = None →
  (∀ i r, user_list (pool w) !! i = Some r →
     ∃ r', user_list
             (pool (userModel.updateUserById (JStr uid) updatedInfo w).2)
             !! i = Some r'
       ∧ id r' = id r
       ∧ username r' = username r
       ∧ user_password r' = user_password r
       ∧ (nullish (get updatedInfo "first_name") →
            first_name r' = first_name r)
       ∧ (nullish (get updatedInfo "last_name1") →
            last_name_1 r' = last_name_1 r)
       ∧ (nullish (get updatedInfo "last_name2") →
            last_name_2 r' = last_name_2 r)
       ∧ (nullish (get updatedInfo "email") → email r' = email r)
       ∧ (id r = uid →
            (∀ s, get updatedInfo "first_name" = JStr s →
                  first_name r' = Some s)
            ∧ (∀ s, get updatedInfo "last_name1" = JStr s →
                    last_name_1 r' = Some s)
            ∧ (∀ s, get updatedInfo "last_name2" = JStr s →
                    last_name_2 r' = Some s)
            ∧ (∀ s, get updatedInfo "email" = JStr s → email r' = Some s))
       ∧ (id r ≠ uid → r' = r))
  ∧ length (user_list
              (pool (userModel.updateUserById (JStr uid) updatedInfo w).2))
    = length (user_list (pool w))
  ∧ admin_list (pool (userModel.updateUserById (JStr uid) updatedInfo w).2)
    = admin_list (pool w).
Proof.
  intros Hf. split; [|split].
  - intros i r Hi. rewrite (updateUserById_lookup _ _ _ _ _ Hf Hi).
    eexists. split; [reflexivity|].
    destruct (targets (JStr uid) r) eqn:E.
    + apply targets_JStr in E. simpl.
      split; [done|]. split; [done|]. split; [done|].
      split; [by intros ->%to_param_nullish|].
      split; [by intros ->%to_param_nullish|].
      split; [by intros ->%to_param_nullish|].
      split; [by intros ->%to_param_nullish|].
      split; [|done].
      intros _. repeat split; by intros s ->.
    + apply targets_JStr_false in E. by repeat split.
  - rewrite updateUserById_run by done. simpl. by rewrite length_fmap.
  - by rewrite updateUserById_run.
Qed.

Lemma updateUserById_coalesce_witness :
  ∃ r', user_list
          (pool (userModel.updateUserById (JStr "1") surname_only
                   alice_world).2) !! 0 = Some r'
        ∧ first_name r' = Some "Alice"
        ∧ last_name_1 r' = Some "Lovelace"
        ∧ email r' = Some "alice@example.org".
Proof.
  pose proof (updateUserById_coalesce "1" surname_only alice_world eq_refl)
    as (Hrows & _).
  destruct (Hrows 0 alice_row eq_refl)
    as (r' & Hr' & _ & _ & _ & Hfirst & _ & _ & Hmail & Hset & _).
  exists r'. split; [exact Hr'|]. split; [|split].
  - apply Hfirst. by left.
  - apply (proj1 (proj2 (Hset eq_refl))). reflexivity.
  - apply Hmail. by right.
Defined.

(** ** [updatePassword] *)

(** C9: on a working connection [updatePassword] with a string password
    returns normally; in the row with the identifier the password column
    becomes the bcrypt hash of the new plaintext and every other column,
    [verified] among them, is as before; every other row, the number of
    rows and [admin_list] are as before. *)
Theorem updatePassword_frame `{Bcrypt} (salt uid pw : string) (w : world) :
  fault (pool w) = None →
  (userModel.updatePassword salt (JStr uid) (JStr pw) w).1 = Return tt
  ∧ (∀ i r, user_list (pool w) !! i = Some r →
       ∃ r', user_list
               (pool (userModel.updatePassword salt (JStr uid) (JStr pw) w).2)
               !! i = Some r'
         ∧ id r' = id r
         ∧ first_name r' = first_name r
         ∧ last_name_1 r' = last_name_1 r
         ∧ last_name_2 r' = last_name_2 r
         ∧ username r' = username r
         ∧ email r' = email r
         ∧ verified r' = verified r
         ∧ (id r = uid → user_password r' = Some (bcrypt_digest pw 10 salt))
         ∧ (id r ≠ uid → r' = r))
  ∧ length (user_list
              (pool (userModel.updatePassword salt (JStr uid) (JStr pw) w).2))
    = length (user_list (pool w))
  ∧ admin_list (pool (userModel.updatePassword salt (JStr uid) (JStr pw) w).2)
    = admin_list (pool w).
Proof.
  intros Hf. rewrite updatePassword_run by done. simpl.
  split; [done|]. split; [|split; [by rewrite length_fmap|done]].
  intros i r Hi. rewrite list_lookup_fmap, Hi. simpl.
  destruct (bool_decide (id r = uid)) eqn:E;
    (eexists; split; [reflexivity|]); simpl.
  - apply bool_decide_eq_true in E. by repeat split.
  - apply bool_decide_eq_false in E. by repeat split.
Qed.

Lemma updatePassword_frame_witness :
  ∃ r', user_list
          (pool (@userModel.updatePassword sample_bcrypt "salt" (JStr "1")
                   (JStr "newpass") verified_alice_world).2) !! 0 = Some r'
        ∧ verified r' = true
        ∧ user_password r' = Some "newpass$salt".
Proof.
  pose proof (@updatePassword_frame sample_bcrypt "salt" "1" "newpass"
                verified_alice_world eq_refl) as (_ & Hrows & _).
  destruct (Hrows 0 (sql.set_verified true alice_row) eq_refl)
    as (r' & Hr' & _ & _ & _ & _ & _ & _ & Hv & Hpw & _).
  exists r'. split; [exact Hr'|]. split; [exact Hv | exact (Hpw eq_refl)].
Defined.

(** ** The surname keys *)

(** C10: [createUser] takes the surnames from the keys [last_name_1] and
    [last_name_2], the names of the columns; [updateUserById] takes them
    from [last_name1] and [last_name2].  So an update whose input gives
    the surnames under the creation keys only runs exactly as if they were
    not given, and leaves both surname columns of every row as they were. *)
Theorem updateUserById_surname_keys `{Bcrypt}
    (new_id : list user_row → string) (salt : string) (userData : object)
    (pw uid s1 s2 : string) (updatedInfo : object) (a b : jsval) (w : world) :
  fault (pool w) = None →
  get userData "user_password" = JStr pw →
  nullish (get updatedInfo "last_name1") →
  nullish (get updatedInfo "last_name2") →
  (∃ row,
     user_list (pool (userModel.createUser new_id salt userData w).2)
     = user_list (pool w) ++ [row]
     ∧ last_name_1 row = to_param (get userData "last_name_1")
     ∧ last_name_2 row = to_param (get userData "last_name_2"))
  ∧ (∀ i r, user_list (pool w) !! i = Some r → id r = uid →
       ∃ r', user_list
               (pool (userModel.updateUserById (JStr uid)
                        (<[ "last_name1" := JStr s1 ]>
                           (<[ "last_name2" := JStr s2 ]> updatedInfo)) w).2)
               !! i = Some r'
             ∧ last_name_1 r' = Some s1 ∧ last_name_2 r' = Some s2)
  ∧ userModel.updateUserById (JStr uid)
      (<[ "last_name_1" := a ]> (<[ "last_name_2" := b ]> updatedInfo)) w
    = userModel.updateUserById (JStr uid) updatedInfo w
  ∧ (∀ i r, user_list (pool w) !! i = Some r →
       ∃ r', user_list
               (pool (userModel.updateUserById (JStr uid)
                        (<[ "last_name_1" := a ]>
                           (<[ "last_name_2" := b ]> updatedInfo)) w).2)
               !! i = Some r'
             ∧ last_name_1 r' = last_name_1 r
             ∧ last_name_2 r' = last_name_2 r).
Proof.
  intros Hf Hpw Hn1 Hn2. split; [|split; [|split]].
  - rewrite (createUser_run new_id salt userData pw w Hf Hpw). by eexists.
  - intros i r Hi Hid. rewrite (updateUserById_lookup _ _ _ _ _ Hf Hi).
    rewrite (proj2 (targets_JStr uid r) Hid).
    eexists. split; [reflexivity|]. simpl.
    rewrite get_insert_eq.
    rewrite get_insert_ne by done. by rewrite get_insert_eq.
  - by rewrite updateUserById_unread_keys.
  - intros i r Hi. rewrite updateUserById_unread_keys.
    rewrite (updateUserById_lookup _ _ _ _ _ Hf Hi).
    eexists. split; [reflexivity|].
    apply to_param_nullish in Hn1, Hn2.
    destruct (targets (JStr uid) r); [|done].
    simpl. by rewrite Hn1, Hn2.
Qed.

Lemma updateUserById_surname_keys_witness :
  ∃ r', user_list
          (pool (userModel.updateUserById (JStr "1") creation_keys
                   alice_world).2) !! 0 = Some r'
        ∧ last_name_1 r' = last_name_1 alice_row
        ∧ last_name_2 r' = last_name_2 alice_row.
Proof.
  pose proof (@updateUserById_surname_keys sample_bcrypt sample_new_id "salt"
                alice_data "correct" "1" "Byron" "King" ∅
                (JStr "Byron") (JStr "King") alice_world
                eq_refl eq_refl (or_introl eq_refl) (or_introl eq_refl))
    as (_ & _ & _ & Hkeep).
  exact (Hkeep 0 alice_row eq_refl).
Defined.

(** * Further properties of the model and the handlers *)

(** ** Lists: the first match after an append and after a map *)

Lemma filter_none {A : Type} (P : A → Prop) `{!∀ x, Decision (P x)}
    (l : list A) :
  (∀ x, x ∈ l → ¬ P x) → filter P l = [].
Proof.
  intros Hall. induction l as [|x l IH]; [done|].
  rewrite filter_cons, decide_False by (apply Hall; by left).
  apply IH. intros y Hy. apply Hall. by right.
Qed.

Lemma filter_none_inv {A : Type} (P : A → Prop) `{!∀ x, Decision (P x)}
    (l : list A) (x : A) :
  filter P l = [] → x ∈ l → ¬ P x.
Proof.
  intros Hnil Hin HP.
  assert (x ∈ filter P l) as Hx by (by apply list_elem_of_filter).
  rewrite Hnil in Hx. by apply not_elem_of_nil in Hx.
Qed.

Lemma head_filter_snoc {A : Type} (P : A → Prop) `{!∀ x, Decision (P x)}
    (l : list A) (x : A) :
  (∀ y, y ∈ l → ¬ P y) → P x → head (filter P (l ++ [x])) = Some x.
Proof.
  intros Hall HP. rewrite filter_app, (filter_none P l Hall). simpl.
  by rewrite filter_cons, decide_True.
Qed.

Lemma filter_fmap_commute {A : Type} (P : A → Prop) `{!∀ x, Decision (P x)}
    (g : A → A) (l : list A) :
  (∀ x, P (g x) ↔ P x) → filter P (g <$> l) = g <$> filter P l.
Proof.
  intros Hg. induction l as [|x l IH]; [done|].
  rewrite fmap_cons, !filter_cons.
  destruct (decide (P x)) as [HP|HP].
  - rewrite decide_True by (by apply Hg). by rewrite fmap_cons, IH.
  - rewrite decide_False by (by rewrite Hg). exact IH.
Qed.

Lemma head_fmap {A B : Type} (g : A → B) (l : list A) :
  head (g <$> l) = g <$> head l.
Proof. by destruct l. Qed.

Lemma sql_eq_false_ne (a b : string) :
  sql_eq (Some a) (Some b) = false ↔ a ≠ b.
Proof. unfold sql_eq. by rewrite bool_decide_eq_false. Qed.

Lemma sql_eq_null (col : param) : sql_eq col None = false.
Proof. by destruct col. Qed.

(** ** Running the lookups and the deletions *)

Lemma findUserByEmail_run (email_ : jsval) (w : world) :
  fault (pool w) = None →
  userModel.findUserByEmail email_ w
  = (Return (find_email (pool w) email_), w).
Proof.
  intros Hf. destruct w as [db c]; simpl in *.
  unfold userModel.findUserByEmail. run_monad. by rewrite Hf.
Qed.

Lemma getUserById_run (userId : jsval) (w : world) :
  fault (pool w) = None →
  userModel.getUserById userId w = (Return (find_id (pool w) userId), w).
Proof.
  intros Hf. destruct w as [db c]; simpl in *.
  unfold userModel.getUserById. run_monad. by rewrite Hf.
Qed.

Lemma deleteUserById_run (userId : jsval) (w : world) :
  fault (pool w) = None →
  userModel.deleteUserById userId w
  = (Return (sql.delete_user_by_id (to_param userId) (pool w)).1,
     mk_world (sql.delete_user_by_id (to_param userId) (pool w)).2
       (console w)).
Proof.
  intros Hf. unfold userModel.deleteUserById. run_monad. by rewrite Hf.
Qed.

Lemma deleteUserByUsername_run (username_ : jsval) (w : world) :
  fault (pool w) = None →
  userModel.deleteUserByUsername username_ w
  = (Return (sql.delete_user_by_username (to_param username_) (pool w)).1,
     mk_world (sql.delete_user_by_username (to_param username_) (pool w)).2
       (console w)).
Proof.
  intros Hf. unfold userModel.deleteUserByUsername. run_monad. by rewrite Hf.
Qed.

Section lookups_after_create.

Context `{Bcrypt} (new_id : list user_row → string).

(** X1: insert then look up by username.  When no row has the username
    yet, the row [findUserByUsername] resolves to after [createUser] is the
    one just created: the given profile fields, the bcrypt hash as
    password, [verified = false]. *)
Theorem createUser_then_findUserByUsername (salt : string)
    (userData : object) (name pw : string) (w : world) :
  fault (pool w) = None →
  get userData "username" = JStr name →
  get userData "user_password" = JStr pw →
  find_user (pool w) (JStr name) = None →
  (userModel.findUserByUsername (JStr name)
     (userModel.createUser new_id salt userData w).2).1
  = Return (Some (created_row new_id salt userData pw (user_list (pool w)))).
Proof.
  intros Hf Hname Hpw Hfree.
  rewrite (createUser_run new_id salt userData pw w Hf Hpw).
  rewrite findUserByUsername_run by done. simpl. f_equal.
  unfold find_user; simpl. apply head_filter_snoc.
  - intros r Hr. pose proof (proj1 (find_user_None _ _) Hfree r Hr) as Hno.
    simpl in Hno. rewrite Hno. intros Hhit. exact Hhit.
  - unfold created_row. cbn [username]. rewrite Hname.
    apply Is_true_true, sql_eq_refl.
Qed.

(** X2: insert then look up by e-mail.  When no row has the address yet,
    [findUserByEmail] after [createUser] resolves to the created row. *)
Theorem createUser_then_findUserByEmail (salt : string)
    (userData : object) (address pw : string) (w : world) :
  fault (pool w) = None →
  get userData "email" = JStr address →
  get userData "user_password" = JStr pw →
  find_email (pool w) (JStr address) = None →
  (userModel.findUserByEmail (JStr address)
     (userModel.createUser new_id salt userData w).2).1
  = Return (Some (created_row new_id salt userData pw (user_list (pool w)))).
Proof.
  intros Hf Hmail Hpw Hfree.
  rewrite (createUser_run new_id salt userData pw w Hf Hpw).
  rewrite findUserByEmail_run by done. simpl. f_equal.
  unfold find_email; simpl. apply head_filter_snoc.
  - intros r Hr. unfold find_email in Hfree. apply head_None in Hfree.
    exact (filter_none_inv _ _ r Hfree Hr).
  - unfold created_row. cbn [email]. rewrite Hmail.
    apply Is_true_true, sql_eq_refl.
Qed.

(** X3: insert then look up by identifier.  When the identifier the table
    assigns is not in use, [getUserById] on it after [createUser] resolves
    to the created row; when it is in use, to the older row that has it. *)
Theorem createUser_then_getUserById (salt : string)
    (userData : object) (pw : string) (w : world) :
  fault (pool w) = None →
  get userData "user_password" = JStr pw →
  (new_id (user_list (pool w)) ∉ id <$> user_list (pool w) →
     (userModel.getUserById (JStr (new_id (user_list (pool w))))
        (userModel.createUser new_id salt userData w).2).1
     = Return (Some (created_row new_id salt userData pw
                       (user_list (pool w)))))
  ∧ (∀ old, find_id (pool w) (JStr (new_id (user_list (pool w)))) = Some old →
       (userModel.getUserById (JStr (new_id (user_list (pool w))))
          (userModel.createUser new_id salt userData w).2).1
       = Return (Some old)).
Proof.
  intros Hf Hpw.
  rewrite (createUser_run new_id salt userData pw w Hf Hpw).
  rewrite getUserById_run by done. simpl. split.
  - intros Hfresh. f_equal. unfold find_id; simpl. apply head_filter_snoc.
    + intros r Hr Hhit. apply bool_decide_unpack in Hhit. apply Hfresh.
      apply list_elem_of_fmap. exists r. by split.
    + unfold created_row. cbn [id]. apply Is_true_true, sql_eq_refl.
  - intros old Hold. f_equal. unfold find_id in *; simpl in *.
    rewrite filter_app.
    destruct (filter _ (user_list (pool w))) as [|x l]; [done|].
    simpl in *. done.
Qed.

End lookups_after_create.

Lemma createUser_then_findUserByUsername_witness :
  (userModel.findUserByUsername (JStr "mallory")
     (@userModel.createUser sample_bcrypt sample_new_id "salt" mallory_data
        carol_world).2).1
  = Return (Some (mk_user_row "ui" None None None (Some "mallory")
                    (Some "letmein$salt") (Some "mallory@example.org")
                    false)).
Proof.
  apply (@createUser_then_findUserByUsername sample_bcrypt sample_new_id
           "salt" mallory_data "mallory" "letmein" carol_world);
    vm_compute; reflexivity.
Defined.

Lemma createUser_then_findUserByEmail_witness :
  (userModel.findUserByEmail (JStr "mallory@example.org")
     (@userModel.createUser sample_bcrypt sample_new_id "salt" mallory_data
        carol_world).2).1
  = Return (Some (mk_user_row "ui" None None None (Some "mallory")
                    (Some "letmein$salt") (Some "mallory@example.org")
                    false)).
Proof.
  apply (@createUser_then_findUserByEmail sample_bcrypt sample_new_id
           "salt" mallory_data "mallory@example.org" "letmein" carol_world);
    vm_compute; reflexivity.
Defined.

Lemma createUser_then_getUserById_witness :
  (userModel.getUserById (JStr "ui")
     (@userModel.createUser sample_bcrypt sample_new_id "salt" mallory_data
        carol_world).2).1
  = Return (Some (mk_user_row "ui" None None None (Some "mallory")
                    (Some "letmein$salt") (Some "mallory@example.org")
                    false)).
Proof.
  refine (proj1 (@createUser_then_getUserById sample_bcrypt sample_new_id
                   "salt" mallory_data "letmein" carol_world
                   eq_refl eq_refl) _).
  vm_compute. intros Hin. inversion Hin as [|? ? ? Hin']; subst.
  inversion Hin'.
Defined.

(** ** Lookups with a missing key *)

(** X4: a lookup whose argument is [null] or [undefined] resolves to
    [null] on a working connection whatever the table holds, rows with
    NULL in the column included; and the three lookups never change the
    world. *)
Theorem lookups_of_nullish (v : jsval) (w : world) :
  nullish v →
  fault (pool w) = None →
  userModel.findUserByUsername v w = (Return None, w)
  ∧ userModel.findUserByEmail v w = (Return None, w)
  ∧ userModel.getUserById v w = (Return None, w).
Proof.
  intros Hv%to_param_nullish Hf.
  rewrite findUserByUsername_run, findUserByEmail_run, getUserById_run
    by done.
  unfold find_user, find_email, find_id. rewrite Hv.
  repeat split; f_equal; f_equal; apply head_None, filter_none;
    intros r _; rewrite sql_eq_null; intros Hhit; exact Hhit.
Qed.

Lemma lookups_of_nullish_witness :
  userModel.findUserByEmail JUndefined nomail_world = (Return None, nomail_world).
Proof.
  exact (proj1 (proj2 (lookups_of_nullish JUndefined nomail_world
                         (or_introl eq_refl) eq_refl))).
Defined.

(** ** Deletions *)

(** X5: [deleteUserById] on a working connection.  The result counts the
    rows that had the identifier; afterwards exactly the rows with another
    identifier are left, in their order, and [getUserById] on the
    identifier resolves to [null].  For an identifier no row has, the
    count is 0 and the table is unchanged; that is no error. *)
Theorem deleteUserById_effect (uid : string) (w : world) :
  fault (pool w) = None →
  ∃ result,
    (userModel.deleteUserById (JStr uid) w).1 = Return result
    ∧ rowCount result = length (filter (λ r, id r = uid) (user_list (pool w)))
    ∧ user_list (pool (userModel.deleteUserById (JStr uid) w).2)
      = filter (λ r, id r ≠ uid) (user_list (pool w))
    ∧ (userModel.getUserById (JStr uid)
         (userModel.deleteUserById (JStr uid) w).2).1 = Return None
    ∧ ((∀ r, r ∈ user_list (pool w) → id r ≠ uid) →
         rowCount result = 0
         ∧ user_list (pool (userModel.deleteUserById (JStr uid) w).2)
           = user_list (pool w))
    ∧ admin_list (pool (userModel.deleteUserById (JStr uid) w).2)
      = admin_list (pool w).
Proof.
  intros Hf. rewrite deleteUserById_run by done.
  unfold sql.delete_user_by_id, sql.with_users, affected.
  cbn [fst snd pool user_list admin_list rowCount to_param to_string].
  assert (filter (λ r, ¬ sql_eq (Some (id r)) (Some uid)) (user_list (pool w))
          = filter (λ r, id r ≠ uid) (user_list (pool w))) as Hkeep.
  { apply list_filter_iff. intros r. unfold sql_eq.
    by rewrite bool_decide_spec. }
  assert (filter (λ r, sql_eq (Some (id r)) (Some uid)) (user_list (pool w))
          = filter (λ r, id r = uid) (user_list (pool w))) as Hhit.
  { apply list_filter_iff. intros r. unfold sql_eq. apply bool_decide_spec. }
  eexists. split; [reflexivity|].
  cbn [fst snd pool user_list admin_list rowCount]. rewrite Hkeep, Hhit.
  split; [done|]. split; [done|]. split; [|split; [|done]].
  - rewrite getUserById_run by done. f_equal.
    unfold find_id.
    cbn [fst snd pool user_list admin_list rowCount to_param to_string].
    replace (filter _ (filter _ _)) with (@nil user_row); [done|].
    symmetry. apply filter_none. intros r Hr Hp.
    apply list_elem_of_filter in Hr as [Hne _].
    apply bool_decide_unpack in Hp. done.
  - intros Hnone. split.
    + by rewrite (filter_none _ _ (λ r Hr, λ Hp, Hnone r Hr Hp)).
    + clear Hkeep Hhit. induction (user_list (pool w)) as [|r l IH]; [done|].
      rewrite filter_cons, decide_True by (apply Hnone; by left).
      f_equal. apply IH. intros r' Hr'. apply Hnone. by right.
Qed.

Lemma deleteUserById_effect_witness :
  ∃ result,
    (userModel.deleteUserById (JStr "1") two_users_world).1 = Return result
    ∧ rowCount result = 1
    ∧ user_list (pool (userModel.deleteUserById (JStr "1") two_users_world).2)
      = [bob_row].
Proof.
  destruct (deleteUserById_effect "1" two_users_world eq_refl)
    as (result & Hres & Hcount & Htable & _).
  exists result. split; [exact Hres|]. split.
  - rewrite Hcount. vm_compute. reflexivity.
  - rewrite Htable. vm_compute. reflexivity.
Defined.

(** X6: [deleteUserByUsername] on a working connection.  The result
    counts the rows that had the username; a row is left exactly when it
    was there with another username or none; afterwards
    [findUserByUsername] on the name resolves to [null]; for a name no row
    has, the count is 0 and the table is unchanged. *)
Theorem deleteUserByUsername_effect (name : string) (w : world) :
  fault (pool w) = None →
  ∃ result,
    (userModel.deleteUserByUsername (JStr name) w).1 = Return result
    ∧ rowCount result
      = length (filter (λ r, username r = Some name) (user_list (pool w)))
    ∧ user_list (pool (userModel.deleteUserByUsername (JStr name) w).2)
      = filter (λ r, username r ≠ Some name) (user_list (pool w))
    ∧ (userModel.findUserByUsername (JStr name)
         (userModel.deleteUserByUsername (JStr name) w).2).1 = Return None
    ∧ (find_user (pool w) (JStr name) = None →
         rowCount result = 0
         ∧ user_list (pool (userModel.deleteUserByUsername (JStr name) w).2)
           = user_list (pool w)).
Proof.
  intros Hf. rewrite deleteUserByUsername_run by done.
  unfold sql.delete_user_by_username, sql.with_users, affected.
  cbn [fst snd pool user_list admin_list rowCount to_param to_string].
  assert (∀ r : user_row,
            Is_true (sql_eq (username r) (Some name))
            ↔ username r = Some name) as Heq.
  { intros r. rewrite Is_true_true, sql_eq_true. split.
    - by intros (s & -> & [= ->]).
    - intros ->. eauto. }
  assert (filter (λ r, ¬ sql_eq (username r) (Some name)) (user_list (pool w))
          = filter (λ r, username r ≠ Some name) (user_list (pool w)))
    as Hkeep.
  { apply list_filter_iff. intros r. by rewrite Heq. }
  assert (filter (λ r, sql_eq (username r) (Some name)) (user_list (pool w))
          = filter (λ r, username r = Some name) (user_list (pool w)))
    as Hhit.
  { apply list_filter_iff. intros r. by rewrite Heq. }
  eexists. split; [reflexivity|].
  cbn [fst snd pool user_list admin_list rowCount]. rewrite Hkeep.
  split; [by rewrite Hhit|]. split; [done|]. split.
  - rewrite findUserByUsername_run by done. f_equal.
    unfold find_user.
    cbn [fst snd pool user_list admin_list rowCount to_param to_string].
    replace (filter _ (filter _ _)) with (@nil user_row); [done|].
    symmetry. apply filter_none. intros r Hr Hp.
    apply list_elem_of_filter in Hr as [Hne _]. by apply Heq in Hp.
  - intros Hnone. unfold find_user in Hnone. apply head_None in Hnone.
    simpl in Hnone. split; [by rewrite Hnone|].
    assert (∀ r, r ∈ user_list (pool w) → username r ≠ Some name) as Hall.
    { intros r Hr Hu. apply (filter_none_inv _ _ r Hnone Hr). by apply Heq. }
    clear Hkeep Hhit Hnone.
    induction (user_list (pool w)) as [|r l IH]; [done|].
    rewrite filter_cons, decide_True by (apply Hall; by left).
    f_equal. apply IH. intros r' Hr'. apply Hall. by right.
Qed.

Lemma deleteUserByUsername_effect_witness :
  ∃ result,
    (userModel.deleteUserByUsername (JStr "zoe") two_users_world).1
    = Return result
    ∧ rowCount result = 0
    ∧ user_list
        (pool (userModel.deleteUserByUsername (JStr "zoe") two_users_world).2)
      = [alice_row; bob_row].
Proof.
  destruct (deleteUserByUsername_effect "zoe" two_users_world eq_refl)
    as (result & Hres & _ & _ & _ & Habsent).
  exists result. split; [exact Hres|]. exact (Habsent eq_refl).
Defined.

(** ** How failures surface *)

Lemma hash_not_a_string `{Bcrypt} (salt : string) (v : jsval) (rounds : nat)
    (w : world) :
  not_a_string v →
  bcrypt.hash salt v rounds w = (Throw (Error (hash_rejection v)), w).
Proof.
  intros Hv. destruct v as [| |b|s]; try done. by destruct (Hv s).
Qed.

(** X7: the two ways [createUser] fails.  A password that is not a string
    (a missing key included) makes it throw bcrypt's message behind the
    prefix "Error al crear el usuario: " before any statement is sent;
    a rejected INSERT makes it throw the driver's message behind the same
    prefix.  Either way the world is exactly as before. *)
Theorem createUser_failures `{Bcrypt} (new_id : list user_row → string)
    (salt : string) (userData : object) (w : world) :
  (not_a_string (get userData "user_password") →
     userModel.createUser new_id salt userData w
     = (Throw (Error ("Error al crear el usuario: "
                      +:+ hash_rejection (get userData "user_password"))),
        w))
  ∧ (∀ pw msg,
       get userData "user_password" = JStr pw →
       fault (pool w) = Some msg →
       userModel.createUser new_id salt userData w
       = (Throw (Error ("Error al crear el usuario: " +:+ msg)), w)).
Proof.
  split.
  - intros Hv. unfold userModel.createUser.
    unfold mbind, M_bind, bind, try_catch.
    by rewrite (hash_not_a_string salt _ 10 w Hv).
  - intros pw msg Hpw Hf. unfold userModel.createUser, bcrypt.hash.
    rewrite Hpw. run_monad. by rewrite Hf.
Qed.

(** X8: [verifyUsers] with nothing to do, and on a failing connection.
    When no row's username is in the array (the empty array, an array of
    unknown names or of nulls) the call returns normally and the table is
    unchanged; a rejected UPDATE makes it throw the driver's message
    behind the prefix "Error al verificar usuarios: " and leaves the
    world as before. *)
Theorem verifyUsers_edges (usernames : list jsval) (w : world) :
  (fault (pool w) = None →
     (∀ r, r ∈ user_list (pool w) →
           sql_eq_any (username r) (to_param <$> usernames) = false) →
     (userModel.verifyUsers usernames w).1 = Return tt
     ∧ user_list (pool (userModel.verifyUsers usernames w).2)
       = user_list (pool w))
  ∧ (∀ msg, fault (pool w) = Some msg →
       userModel.verifyUsers usernames w
       = (Throw (Error ("Error al verificar usuarios: " +:+ msg)), w)).
Proof.
  split.
  - intros Hf Hmiss. rewrite verifyUsers_run by done. split; [done|]. simpl.
    induction (user_list (pool w)) as [|r l IH]; [done|].
    rewrite fmap_cons, (Hmiss r) by (by left).
    f_equal. apply IH. intros r' Hr'. apply Hmiss. by right.
  - intros msg Hf. unfold userModel.verifyUsers. run_monad. by rewrite Hf.
Qed.

(** X9: [verifyUsers] only ever raises the flag, and repeating it changes
    nothing.  After a call on a working connection every row is at its
    place with the same columns except possibly [verified], a row that was
    verified still is, and a second call with the same array leaves the
    world as the first one left it. *)
Theorem verifyUsers_monotone_idempotent (usernames : list jsval) (w : world) :
  fault (pool w) = None →
  (∀ i r, user_list (pool w) !! i = Some r →
     ∃ r', user_list (pool (userModel.verifyUsers usernames w).2) !! i
           = Some r'
       ∧ sql.set_verified (verified r) r' = r
       ∧ (verified r = true → verified r' = true))
  ∧ (userModel.verifyUsers usernames (userModel.verifyUsers usernames w).2).2
    = (userModel.verifyUsers usernames w).2.
Proof.
  intros Hf. rewrite (verifyUsers_run usernames w Hf). split.
  - intros i r Hi. simpl. rewrite list_lookup_fmap, Hi. simpl.
    eexists. split; [reflexivity|].
    destruct (sql_eq_any _ _); destruct r; simpl; by split.
  - rewrite verifyUsers_run by exact Hf.
    unfold sql.verify_usernames, sql.with_users.
    cbn [fst snd pool user_list admin_list fault console].
    f_equal. f_equal.
    rewrite <- list_fmap_compose. apply list_fmap_ext. intros i r _.
    unfold compose.
    destruct (sql_eq_any (username r) _) eqn:E; [|by rewrite E].
    cbn [sql.set_verified username]. rewrite E. by destruct r.
Qed.

Lemma verifyUsers_monotone_idempotent_witness :
  (userModel.verifyUsers [JStr "alice"; JNull]
     (userModel.verifyUsers [JStr "alice"; JNull] two_users_world).2).2
  = (userModel.verifyUsers [JStr "alice"; JNull] two_users_world).2.
Proof.
  exact (proj2 (verifyUsers_monotone_idempotent [JStr "alice"; JNull]
                  two_users_world eq_refl)).
Defined.

(** X10: a rejected UPDATE in [updateUserById] is logged and rethrown as
    it is.  The call writes one line to the error console, the text
    "Error al actualizar el usuario:" and the error object, throws the
    driver's error without a prefix, and leaves the tables as before. *)
Theorem updateUserById_fault (userId : jsval) (updatedInfo : object)
    (w : world) (msg : string) :
  fault (pool w) = Some msg →
  userModel.updateUserById userId updatedInfo w
  = (Throw (Error msg),
     mk_world (pool w)
       (console w
        ++ [mk_log Stderr [LogVal (JStr "Error al actualizar el usuario:");
                           LogErr (Error msg)]])).
Proof.
  intros Hf. unfold userModel.updateUserById. run_monad. by rewrite Hf.
Qed.

Lemma updateUserById_fault_witness :
  userModel.updateUserById (JStr "1") surname_only down_world
  = (Throw (Error "connection refused"),
     mk_world (pool down_world)
       [mk_log Stderr [LogVal (JStr "Error al actualizar el usuario:");
                       LogErr (Error "connection refused")]]).
Proof.
  exact (updateUserById_fault (JStr "1") surname_only down_world
           "connection refused" eq_refl).
Defined.

(** X11: [updateUserById] on an identifier no row has.  On a working
    connection the call returns a result with [rowCount = 0] and the
    table is unchanged; a [null] or [undefined] identifier is such an
    identifier. *)
Theorem updateUserById_absent (userId : jsval) (updatedInfo : object)
    (w : world) :
  fault (pool w) = None →
  (nullish userId ∨ ∀ r, r ∈ user_list (pool w) → targets userId r = false) →
  ∃ result,
    (userModel.updateUserById userId updatedInfo w).1 = Return result
    ∧ rowCount result = 0
    ∧ user_list (pool (userModel.updateUserById userId updatedInfo w).2)
      = user_list (pool w).
Proof.
  intros Hf Habs.
  assert (∀ r, r ∈ user_list (pool w) → targets userId r = false) as Hmiss.
  { destruct Habs as [Hn%to_param_nullish|Hall]; [|done].
    intros r _. unfold targets. rewrite Hn. apply sql_eq_null. }
  rewrite updateUserById_run by done.
  eexists. split; [reflexivity|].
  unfold sql.update_user, sql.with_users, affected.
  cbn [fst snd pool user_list rowCount]. split.
  - rewrite filter_none; [done|]. intros r Hr Hhit.
    apply Is_true_true in Hhit. pose proof (Hmiss r Hr) as Hno.
    unfold targets in Hno. congruence.
  - clear Habs. induction (user_list (pool w)) as [|r l IH]; [done|].
    rewrite fmap_cons. f_equal.
    + pose proof (Hmiss r (list_elem_of_here _ _)) as Hno.
      unfold targets in Hno. by rewrite Hno.
    + apply IH. intros r' Hr'. apply Hmiss. by right.
Qed.

Lemma updateUserById_absent_witness :
  ∃ result,
    (userModel.updateUserById JUndefined surname_only two_users_world).1
    = Return result
    ∧ rowCount result = 0
    ∧ user_list
        (pool (userModel.updateUserById JUndefined surname_only
                 two_users_world).2)
      = [alice_row; bob_row].
Proof.
  exact (updateUserById_absent JUndefined surname_only two_users_world
           eq_refl (or_introl (or_introl eq_refl))).
Defined.

(** X12: repeating a profile update changes nothing more.  On a working
    connection a second [updateUserById] with the same identifier and the
    same input leaves the world as the first one left it. *)
Theorem updateUserById_idempotent (userId : jsval) (updatedInfo : object)
    (w : world) :
  fault (pool w) = None →
  (userModel.updateUserById userId updatedInfo
     (userModel.updateUserById userId updatedInfo w).2).2
  = (userModel.updateUserById userId updatedInfo w).2.
Proof.
  intros Hf. rewrite (updateUserById_run userId updatedInfo w Hf).
  rewrite updateUserById_run by exact Hf.
  unfold sql.update_user, sql.with_users.
  cbn [fst snd pool user_list admin_list fault console].
  f_equal. f_equal.
  rewrite <- list_fmap_compose. apply list_fmap_ext. intros i r _.
  unfold compose.
  destruct (sql_eq (Some (id r)) (to_param userId)) eqn:E; [|by rewrite E].
  cbn [sql.merge_profile id]. rewrite E.
  unfold sql.merge_profile. cbn [id first_name last_name_1 last_name_2
    username user_password email verified].
  f_equal; unfold coalesce; by repeat case_match.
Qed.

Lemma updateUserById_idempotent_witness :
  (userModel.updateUserById (JStr "1") surname_only
     (userModel.updateUserById (JStr "1") surname_only
        verified_alice_world).2).2
  = (userModel.updateUserById (JStr "1") surname_only verified_alice_world).2.
Proof.
  exact (updateUserById_idempotent (JStr "1") surname_only
           verified_alice_world eq_refl).
Defined.

(** X13: the two ways [updatePassword] fails.  A new password that is not
    a string makes it throw bcrypt's message as it is before any statement
    is sent; a rejected UPDATE makes it throw the driver's error as it is.
    There is no prefix, nothing is logged, and the world is as before. *)
Theorem updatePassword_failures `{Bcrypt} (salt : string)
    (userId newPassword : jsval) (w : world) :
  (not_a_string newPassword →
     userModel.updatePassword salt userId newPassword w
     = (Throw (Error (hash_rejection newPassword)), w))
  ∧ (∀ pw msg, newPassword = JStr pw → fault (pool w) = Some msg →
       userModel.updatePassword salt userId newPassword w
       = (Throw (Error msg), w)).
Proof.
  split.
  - intros Hv. unfold userModel.updatePassword.
    unfold mbind, M_bind, bind.
    by rewrite (hash_not_a_string salt _ 10 w Hv).
  - intros pw msg -> Hf. unfold userModel.updatePassword, bcrypt.hash.
    run_monad. by rewrite Hf.
Qed.

(** ** The handlers on a failing connection and with missing keys *)

(** X14: [loginUser] on a failing connection.  Whatever the body, the
    reply is 500 "Error durante el acceso", never 404; the console gets
    the request line and then one error line with the driver's message;
    the tables are as before. *)
Theorem loginUser_on_fault (body : object) (w : world) (msg : string) :
  fault (pool w) = Some msg →
  userController.loginUser body w
  = (Return outcomes.LoginStorageError,
     mk_world (pool w)
       (console w
        ++ [mk_log Stdout
              [LogVal (JStr "Login request received: "); LogObj body];
            mk_log Stderr
              [LogVal (JStr "Error durante el acceso:");
               LogVal (JStr msg)]])).
Proof.
  intros Hf. unfold userController.loginUser, userModel.findUserByUsername.
  run_monad. rewrite Hf. simpl. by rewrite <- app_assoc.
Qed.

Lemma loginUser_on_fault_witness :
  (userController.loginUser
     {[ "username" := JStr "nobody"; "password" := JStr "x" ]}
     down_world).1
  = Return outcomes.LoginStorageError.
Proof.
  exact (f_equal fst
           (loginUser_on_fault
              {[ "username" := JStr "nobody"; "password" := JStr "x" ]}
              down_world "connection refused" eq_refl)).
Defined.

(** X15: [checkAdmin] on a working connection changes nothing, console
    included, and a body without [user_id] (or with [null]) is answered as
    a regular user whatever [admin_list] holds. *)
Theorem checkAdmin_missing_user_id (body : object) (w : world) :
  fault (pool w) = None →
  (userController.checkAdmin body w).2 = w
  ∧ (nullish (get body "user_id") →
       (userController.checkAdmin body w).1
       = Return outcomes.IsRegularUser).
Proof.
  intros Hf. split.
  - destruct w as [db c]; simpl in *.
    unfold userController.checkAdmin, userModel.checkIfAdmin.
    run_monad. rewrite Hf. by destruct (bool_decide _).
  - intros Hn%to_param_nullish. rewrite checkAdmin_reply by done.
    rewrite Hn, filter_none; [done|].
    intros a _. rewrite sql_eq_null. intros Hhit. exact Hhit.
Qed.

Lemma checkAdmin_missing_user_id_witness :
  (userController.checkAdmin ∅ two_users_world).1
  = Return outcomes.IsRegularUser.
Proof.
  exact (proj2 (checkAdmin_missing_user_id ∅ two_users_world eq_refl)
           (or_introl eq_refl)).
Defined.

(** X16: [checkAdmin] on a failing connection.  The reply is 500
    "Internal server error" and the one console line written carries the
    fixed text "Database query error": the driver's own message appears
    neither in the reply nor on the console. *)
Theorem checkAdmin_on_fault (body : object) (w : world) (msg : string) :
  fault (pool w) = Some msg →
  userController.checkAdmin body w
  = (Return outcomes.StorageError,
     mk_world (pool w)
       (console w
        ++ [mk_log Stderr
              [LogVal (JStr "Error checking admin status:");
               LogVal (JStr "Database query error")]])).
Proof.
  intros Hf. unfold userController.checkAdmin, userModel.checkIfAdmin.
  run_monad. by rewrite Hf.
Qed.

Lemma checkAdmin_on_fault_witness :
  userController.checkAdmin {[ "user_id" := JStr "1" ]} down_world
  = (Return outcomes.StorageError,
     mk_world (pool down_world)
       [mk_log Stderr
          [LogVal (JStr "Error checking admin status:");
           LogVal (JStr "Database query error")]]).
Proof.
  exact (checkAdmin_on_fault {[ "user_id" := JStr "1" ]} down_world
           "connection refused" eq_refl).
Defined.

(** ** How the operations compose with [loginUser] *)

Lemma find_user_fmap (g : user_row → user_row) (v : jsval)
    (table : list user_row) :
  (∀ r, username (g r) = username r) →
  head (filter (λ r, sql_eq (username r) (to_param v)) (g <$> table))
  = g <$> head (filter (λ r, sql_eq (username r) (to_param v)) table).
Proof.
  intros Hg. rewrite filter_fmap_commute, head_fmap; [done|].
  intros r. by rewrite Hg.
Qed.

(** X17: a profile update locks the user out until the next bulk
    verification.  After [updateUserById] on the identifier of the row a
    username resolves to, [loginUser] for that username answers
    NotVerified when the password test passes and InvalidPassword when it
    does not; it cannot answer Success. *)
Theorem loginUser_after_updateUserById (uid : string) (updatedInfo : object)
    (body : object) (user : user_row) (w : world) :
  fault (pool w) = None →
  find_user (pool w) (get body "username") = Some user →
  id user = uid →
  (userController.loginUser body
     (userModel.updateUserById (JStr uid) updatedInfo w).2).1
  = Return (if isPasswordValid user (get body "password")
            then outcomes.NotVerified else outcomes.InvalidPassword).
Proof.
  intros Hf Hfind Hid.
  rewrite (updateUserById_run (JStr uid) updatedInfo w Hf).
  rewrite loginUser_reply by exact Hf. f_equal.
  unfold login_reply, find_user, sql.update_user, sql.with_users.
  cbn [fst snd pool user_list].
  rewrite find_user_fmap.
  2:{ intros r. by destruct (sql_eq _ _). }
  unfold find_user in Hfind. rewrite Hfind. cbn [fmap option_fmap option_map].
  change (sql_eq (Some (id user)) (to_param (JStr uid)))
    with (targets (JStr uid) user).
  rewrite (proj2 (targets_JStr uid user) Hid).
  unfold isPasswordValid. cbn [sql.merge_profile user_password verified id].
  by destruct (strict_eq _ _).
Qed.

Lemma loginUser_after_updateUserById_witness :
  (userController.loginUser
     {[ "username" := JStr "bob"; "password" := JStr "h2" ]}
     (userModel.updateUserById (JStr "2") ∅ two_users_world).2).1
  = Return outcomes.NotVerified.
Proof.
  exact (loginUser_after_updateUserById "2" ∅
           {[ "username" := JStr "bob"; "password" := JStr "h2" ]}
           bob_row two_users_world eq_refl eq_refl eq_refl).
Defined.

(** X18: the stored hash is itself a password.  For a user stored by
    [createUser] under a free username and then verified, [loginUser]
    answers Success with the user's identifier to a request whose password
    is the content of the password column, the bcrypt hash string. *)
Theorem loginUser_accepts_stored_hash `{Bcrypt}
    (new_id : list user_row → string) (salt : string) (userData : object)
    (name pw : string) (w : world) :
  fault (pool w) = None →
  find_user (pool w) (JStr name) = None →
  get userData "username" = JStr name →
  get userData "user_password" = JStr pw →
  (userController.loginUser
     {[ "username" := JStr name;
        "password" := JStr (bcrypt_digest pw 10 salt) ]}
     (userModel.verifyUsers [JStr name]
        (userModel.createUser new_id salt userData w).2).2).1
  = Return (outcomes.Success (new_id (user_list (pool w)))).
Proof.
  intros Hf Hfree Hname Hpw.
  pose proof (find_created_verified new_id salt userData name pw w
                Hf Hfree Hname Hpw) as Hfind.
  assert (fault (pool (userModel.verifyUsers [JStr name]
                         (userModel.createUser new_id salt userData w).2).2)
          = None) as Hf2.
  { rewrite (createUser_run new_id salt userData pw w Hf Hpw). simpl.
    by rewrite verifyUsers_run. }
  rewrite (loginUser_reply _ _ Hf2). unfold login_reply.
  rewrite get_insert_eq, Hfind.
  rewrite get_insert_ne by done. rewrite get_singleton.
  unfold isPasswordValid, strict_eq; simpl.
  by rewrite bool_decide_eq_true_2.
Qed.

Lemma loginUser_accepts_stored_hash_witness :
  (userController.loginUser
     {[ "username" := JStr "alice"; "password" := JStr "correct$salt" ]}
     (userModel.verifyUsers [JStr "alice"]
        (@userModel.createUser sample_bcrypt sample_new_id "salt"
           alice_data empty_world).2).2).1
  = Return (outcomes.Success "u").
Proof.
  apply (@loginUser_accepts_stored_hash sample_bcrypt sample_new_id "salt"
           alice_data "alice" "correct" empty_world);
    vm_compute; reflexivity.
Defined.

(** ** Invariants of the table *)

Lemma passwords_set_fmap (g : user_row → user_row) (table : list user_row) :
  (∀ r, user_password r ≠ None → user_password (g r) ≠ None) →
  passwords_set table → passwords_set (g <$> table).
Proof.
  intros Hg Hset r' Hin.
  apply list_elem_of_fmap in Hin as (r & -> & Hr). by apply Hg, Hset.
Qed.

Lemma passwords_set_filter (P : user_row → Prop) `{!∀ r, Decision (P r)}
    (table : list user_row) :
  passwords_set table → passwords_set (filter P table).
Proof.
  intros Hset r Hin. apply list_elem_of_filter in Hin as [_ Hr].
  by apply Hset.
Qed.

(** X19: no operation of the model ever leaves a row without a
    password.  If every row has a non-NULL password column, so has every
    row after [createUser], [verifyUsers], [updateUserById],
    [updatePassword], [deleteUserById] and [deleteUserByUsername], for all
    arguments and whether or not the call fails. *)
Theorem model_keeps_passwords_set `{Bcrypt} (new_id : list user_row → string)
    (salt : string) (v1 v2 : jsval) (o : object) (usernames : list jsval)
    (w : world) :
  passwords_set (user_list (pool w)) →
  passwords_set (user_list (pool (userModel.createUser new_id salt o w).2))
  ∧ passwords_set (user_list (pool (userModel.verifyUsers usernames w).2))
  ∧ passwords_set (user_list (pool (userModel.updateUserById v1 o w).2))
  ∧ passwords_set
      (user_list (pool (userModel.updatePassword salt v1 v2 w).2))
  ∧ passwords_set (user_list (pool (userModel.deleteUserById v1 w).2))
  ∧ passwords_set (user_list (pool (userModel.deleteUserByUsername v1 w).2)).
Proof.
  intros Hset. repeat split.
  - unfold userModel.createUser, bcrypt.hash.
    destruct (get o "user_password") as [| |b|pw]; run_monad; try done.
    destruct (fault (pool w)); [done|]. simpl.
    intros r [Hr|Hr%list_elem_of_singleton]%elem_of_app; [by apply Hset|].
    by subst r.
  - unfold userModel.verifyUsers. run_monad.
    destruct (fault (pool w)); [done|]. simpl.
    apply passwords_set_fmap; [|done]. intros r Hr.
    by destruct (sql_eq_any _ _).
  - unfold userModel.updateUserById. run_monad.
    destruct (fault (pool w)); [done|]. simpl.
    apply passwords_set_fmap; [|done]. intros r Hr.
    by repeat case_match.
  - unfold userModel.updatePassword, bcrypt.hash.
    destruct v2 as [| |b|pw]; run_monad; try done.
    destruct (fault (pool w)); [done|]. simpl.
    apply passwords_set_fmap; [|done]. intros r Hr.
    by repeat case_match.
  - unfold userModel.deleteUserById. run_monad.
    destruct (fault (pool w)); [done|]. simpl.
    by apply passwords_set_filter.
  - unfold userModel.deleteUserByUsername. run_monad.
    destruct (fault (pool w)); [done|]. simpl.
    by apply passwords_set_filter.
Qed.

Lemma passwords_set_two_users : passwords_set (user_list (pool two_users_world)).
Proof.
  intros r Hr. simpl in Hr.
  apply elem_of_cons in Hr as [->|Hr]; [done|].
  apply list_elem_of_singleton in Hr as ->. done.
Qed.

Lemma model_keeps_passwords_set_witness :
  passwords_set
    (user_list
       (pool (@userModel.updatePassword sample_bcrypt "salt" (JStr "2")
                (JStr "new") two_users_world).2)).
Proof.
  exact (proj1 (proj2 (proj2 (proj2
           (@model_keeps_passwords_set sample_bcrypt sample_new_id "salt"
              (JStr "2") (JStr "new") ∅ [] two_users_world
              passwords_set_two_users))))).
Defined.

(** X20: without a string password there is no way in.  When every row
    has a password, [loginUser] answers a request whose [password] is
    missing, [null] or a boolean with UserNotFound or InvalidPassword; it
    never gets as far as the [verified] test. *)
Theorem loginUser_needs_string_password (body : object) (w : world) :
  passwords_set (user_list (pool w)) →
  fault (pool w) = None →
  not_a_string (get body "password") →
  (userController.loginUser body w).1 = Return outcomes.UserNotFound
  ∨ (userController.loginUser body w).1 = Return outcomes.InvalidPassword.
Proof.
  intros Hset Hf Hpw. rewrite loginUser_reply by done. unfold login_reply.
  destruct (find_user _ _) as [u|] eqn:Hfind; [|by left]. right.
  apply find_user_Some in Hfind as [Hin _].
  unfold isPasswordValid, strict_eq.
  destruct (user_password u) as [h|] eqn:Hh; [|by destruct (Hset u Hin)].
  simpl. rewrite bool_decide_eq_false_2; [done|].
  intros Heq. by destruct (Hpw h).
Qed.

Lemma loginUser_needs_string_password_witness :
  (userController.loginUser {[ "username" := JStr "bob" ]}
     two_users_world).1 = Return outcomes.UserNotFound
  ∨ (userController.loginUser {[ "username" := JStr "bob" ]}
       two_users_world).1 = Return outcomes.InvalidPassword.
Proof.
  apply (loginUser_needs_string_password {[ "username" := JStr "bob" ]}
           two_users_world passwords_set_two_users eq_refl).
  intros s. vm_compute. discriminate.
Defined.

Lemma filter_id_at_most_one (uid : string) (table : list user_row) :
  NoDup (id <$> table) → (length (filter (λ r, id r = uid) table) ≤ 1)%nat.
Proof.
  induction table as [|r l IH]; [simpl; lia|].
  rewrite fmap_cons, NoDup_cons. intros [Hnotin Hnd].
  rewrite filter_cons. destruct (decide (id r = uid)) as [Heq|Hne].
  - rewrite filter_none; [simpl; lia|].
    intros r' Hr' Hid. apply Hnotin. apply list_elem_of_fmap.
    exists r'. split; [congruence | done].
  - by apply IH.
Qed.

(** X21: the statements never change an identifier.  [verifyUsers],
    [updateUserById] and [updatePassword] leave the list of identifiers of
    the table as it was, for all arguments and whether or not they fail;
    so when identifiers are unique, [updateUserById] and [deleteUserById]
    on a working connection report at most one row. *)
Theorem identifiers_kept `{Bcrypt} (salt : string) (v1 v2 : jsval)
    (o : object) (usernames : list jsval) (uid : string) (w : world) :
  (id <$> user_list (pool (userModel.verifyUsers usernames w).2)
   = id <$> user_list (pool w))
  ∧ (id <$> user_list (pool (userModel.updateUserById v1 o w).2)
     = id <$> user_list (pool w))
  ∧ (id <$> user_list (pool (userModel.updatePassword salt v1 v2 w).2)
     = id <$> user_list (pool w))
  ∧ (NoDup (id <$> user_list (pool w)) → fault (pool w) = None →
       ∃ updated deleted,
         (userModel.updateUserById (JStr uid) o w).1 = Return updated
         ∧ (userModel.deleteUserById (JStr uid) w).1 = Return deleted
         ∧ (rowCount updated ≤ 1)%nat ∧ (rowCount deleted ≤ 1)%nat).
Proof.
  assert (∀ (g : user_row → user_row) (l : list user_row),
            (∀ r, id (g r) = id r) → id <$> (g <$> l) = id <$> l) as Hmap.
  { intros g l Hg. rewrite <- list_fmap_compose. apply list_fmap_ext.
    intros i r _. apply Hg. }
  split; [|split; [|split]].
  - unfold userModel.verifyUsers. run_monad.
    destruct (fault (pool w)); [done|]. simpl. apply Hmap.
    intros r. by destruct (sql_eq_any _ _).
  - unfold userModel.updateUserById. run_monad.
    destruct (fault (pool w)); [done|]. simpl. apply Hmap.
    intros r. by repeat case_match.
  - unfold userModel.updatePassword, bcrypt.hash.
    destruct v2 as [| |b|pw]; run_monad; try done.
    destruct (fault (pool w)); [done|]. simpl. apply Hmap.
    intros r. by repeat case_match.
  - intros Hnd Hf.
    rewrite updateUserById_run, deleteUserById_run by done.
    eexists _, _. split; [reflexivity|]. split; [reflexivity|].
    unfold sql.update_user, sql.delete_user_by_id, affected.
    cbn [fst snd rowCount to_param to_string].
    assert (filter (λ r, sql_eq (Some (id r)) (Some uid)) (user_list (pool w))
            = filter (λ r, id r = uid) (user_list (pool w))) as ->.
    { apply list_filter_iff. intros r. unfold sql_eq.
      apply bool_decide_spec. }
    split; by apply filter_id_at_most_one.
Qed.

(** X22: a changed password verifies.  After [updatePassword] with a
    string on a working connection, [verifyPassword] resolves to [true]
    for the new plaintext against the password column of every row that
    has the identifier, given that bcrypt accepts its own hashes. *)
Theorem updatePassword_then_verifyPassword `{Bcrypt} (salt uid pw : string)
    (w : world) (i : nat) (r : user_row) :
  bcrypt_sound →
  fault (pool w) = None →
  user_list (pool w) !! i = Some r →
  id r = uid →
  ∃ r',
    user_list (pool (userModel.updatePassword salt (JStr uid) (JStr pw) w).2)
      !! i = Some r'
    ∧ (userModel.verifyPassword (JStr pw) (from_param (user_password r'))
         (userModel.updatePassword salt (JStr uid) (JStr pw) w).2).1
      = Return true.
Proof.
  intros Hsound Hf Hi Hid. rewrite updatePassword_run by done. simpl.
  rewrite list_lookup_fmap, Hi. simpl.
  rewrite bool_decide_eq_true_2 by done.
  eexists. split; [reflexivity|]. simpl.
  unfold userModel.verifyPassword, bcrypt.compare. run_monad.
  by rewrite Hsound.
Qed.

Lemma updatePassword_then_verifyPassword_witness :
  ∃ r',
    user_list
      (pool (@userModel.updatePassword sample_bcrypt "salt" (JStr "2")
               (JStr "new") two_users_world).2) !! 1 = Some r'
    ∧ (@userModel.verifyPassword sample_bcrypt (JStr "new")
         (from_param (user_password r'))
         (@userModel.updatePassword sample_bcrypt "salt" (JStr "2")
            (JStr "new") two_users_world).2).1
      = Return true.
Proof.
  exact (@updatePassword_then_verifyPassword sample_bcrypt "salt" "2" "new"
           two_users_world 1 bob_row sample_check_digest eq_refl eq_refl
           eq_refl).
Defined.

(** X23: what [loginUser] writes on a working connection.  The console
    gets the request line; a second line, "User <username> logged in
    successfully.", follows exactly when the reply is Success. *)
Theorem loginUser_console_lines (body : object) (w : world) :
  fault (pool w) = None →
  console (userController.loginUser body w).2
  = console w
    ++ mk_log Stdout [LogVal (JStr "Login request received: "); LogObj body]
    :: (if bool_decide (status (login_reply (pool w) body) = 200)
        then [mk_log Stdout
                [LogVal (JStr ("User " +:+ to_string (get body "username")
                               +:+ " logged in successfully."))]]
        else []).
Proof.
  intros Hf. destruct w as [db c]; simpl in *.
  unfold userController.loginUser, userModel.findUserByUsername, login_reply,
    find_user, isPasswordValid.
  run_monad. rewrite Hf.
  destruct (head _) as [u|]; [|done].
  destruct (negb (strict_eq _ _)); [done|].
  destruct (negb (verified u)); [done|].
  simpl. by rewrite <- app_assoc.
Qed.

Lemma loginUser_console_lines_witness :
  console
    (userController.loginUser
       {[ "username" := JStr "bob"; "password" := JStr "h2" ]}
       two_users_world).2
  = [mk_log Stdout
       [LogVal (JStr "Login request received: ");
        LogObj {[ "username" := JStr "bob"; "password" := JStr "h2" ]}];
     mk_log Stdout [LogVal (JStr "User bob logged in successfully.")]].
Proof.
  exact (loginUser_console_lines
           {[ "username" := JStr "bob"; "password" := JStr "h2" ]}
           two_users_world eq_refl).
Defined.
